(** * chainer.functions.connection.linear

    A shallow embedding of [chainer/functions/connection/linear.py]: the
    fully-connected layer [Linear], its stateless twin
    [NonparameterizedLinear] and the entry point [linear].

    The array backend (numpy) is an external collaborator of the module.  It
    is modelled here on row-major arrays of IEEE-754 binary floating-point
    numbers ([spec_float] of the Standard Library), with the operations the
    module calls: [ndim], [len], [reshape], [.T], [dot], in-place [+=] with
    broadcasting, [sum(0)], [repeat], [zeros_like].

    Shapes, dtypes, errors and the element-wise operations of these are
    fixed by numpy and modelled as such.  The order and the precision in
    which [dot] and [sum] accumulate are not: they are those of the linear
    algebra routines and of the reduction loops numpy is built on.  The
    values of these two operations are therefore left to a [Backend], which
    every definition and theorem below takes as a parameter; [textbook], the
    backend that accumulates in the dtype of the operands from left to
    right, is the one concrete arrays are run on. *)

From Stdlib Require Import ZArith List Lia Bool Arith.
From Stdlib Require Import Floats.SpecFloat.
From stdpp Require Import gmap strings.

Import ListNotations.
Local Open Scope nat_scope.

(* ===================================================================== *)
(** * Python results                                                      *)
(* ===================================================================== *)

(** The exceptions a call of this module can end in. *)
Inductive exn : Type :=
  | TypeError
  | ValueError
  | IndexError
  | KeyError
  | AttributeError
  | AssertionError
  | ZeroDivisionError
  | InvalidType.

Inductive result (A : Type) : Type :=
  | Ok (a : A)
  | Raise (e : exn).

Arguments Ok {A} a.
Arguments Raise {A} e.

#[global] Instance result_ret : MRet result := fun A a => Ok a.

#[global] Instance result_bind : MBind result := fun A B k m =>
  match m with
  | Ok a => k a
  | Raise e => Raise e
  end.

(** [assert c] *)
Definition py_assert (c : bool) : result unit :=
  if c then Ok tt else Raise AssertionError.

(** [t[i]] on a tuple or list. *)
Definition py_index {A} (t : list A) (i : nat) : result A :=
  match nth_error t i with
  | Some a => Ok a
  | None => Raise IndexError
  end.

(** [d[key]] on a dict. *)
Definition py_getitem {A} (d : gmap string A) (key : string) : result A :=
  match d !! key with
  | Some a => Ok a
  | None => Raise KeyError
  end.

(* ===================================================================== *)
(** * The array backend                                                   *)
(* ===================================================================== *)

Module numpy.

(** The dtypes of the arrays of the model: numpy's real floating-point
    dtypes. *)
Inductive dtype : Type := float16 | float32 | float64.

#[global] Instance dtype_eq_dec : EqDecision dtype.
Proof. solve_decision. Defined.

Definition dt_prec (dt : dtype) : Z :=
  match dt with float16 => 11 | float32 => 24 | float64 => 53 end%Z.

Definition dt_emax (dt : dtype) : Z :=
  match dt with float16 => 16 | float32 => 128 | float64 => 1024 end%Z.

(** Binary operations are carried out in the wider of the two dtypes. *)
Definition result_type (a b : dtype) : dtype :=
  match a, b with
  | float64, _ | _, float64 => float64
  | float32, _ | _, float32 => float32
  | float16, float16 => float16
  end.

Definition scalar : Type := spec_float.

Definition fzero : scalar := S754_zero false.

Definition f_add (dt : dtype) : scalar -> scalar -> scalar :=
  SFadd (dt_prec dt) (dt_emax dt).

Definition f_mul (dt : dtype) : scalar -> scalar -> scalar :=
  SFmul (dt_prec dt) (dt_emax dt).

(** Rounding of a number to the format of [dt]. *)
Definition f_round (dt : dtype) (x : scalar) : scalar :=
  match x with
  | S754_finite s m e =>
      binary_normalize (dt_prec dt) (dt_emax dt) (cond_Zopp s (Zpos m)) e s
  | _ => x
  end.

(** Conversion between dtypes; nothing happens when they agree. *)
Definition convert (from to : dtype) (x : scalar) : scalar :=
  if decide (from = to) then x else f_round to x.

(** The integer [z] as a number of dtype [dt]. *)
Definition of_Z (dt : dtype) (z : Z) : scalar :=
  binary_normalize (dt_prec dt) (dt_emax dt) z 0 false.

(** [numpy.prod] of a shape. *)
Definition prod (sh : list nat) : nat := fold_right Nat.mul 1 sh.

(** An array: dtype, shape, and the elements in row-major order. *)
Record ndarray : Type := mk_ndarray {
  dtype_of : dtype;
  shape : list nat;
  data : list scalar
}.

Definition ndim (a : ndarray) : nat := length (shape a).

Definition getitem (d : list scalar) (k : nat) : scalar := nth k d fzero.

Definition tabulate (n : nat) (f : nat -> scalar) : list scalar :=
  map f (seq 0 n).

(** Multi-index of the flat position [k] in an array of shape [sh]. *)
Fixpoint unravel (sh : list nat) (k : nat) : list nat :=
  match sh with
  | [] => []
  | _ :: rest => Nat.div k (prod rest) :: unravel rest (Nat.modulo k (prod rest))
  end.

(** Flat position of a multi-index. *)
Fixpoint ravel (sh idx : list nat) : nat :=
  match sh, idx with
  | _ :: rest, i :: idx' => i * prod rest + ravel rest idx'
  | _, _ => 0
  end.

(** [len(a)]: unsized for a 0-d array. *)
Definition len (a : ndarray) : result nat :=
  match shape a with
  | [] => Raise TypeError
  | n :: _ => Ok n
  end.

(** [a.astype(dt)] *)
Definition astype (dt : dtype) (a : ndarray) : ndarray :=
  mk_ndarray dt (shape a) (map (convert (dtype_of a) dt) (data a)).

(** [a.reshape(newshape)]; [None] stands for the one dimension given as
    [-1], which is inferred from the size of [a]. *)
Definition reshape (a : ndarray) (newshape : list (option nat)) : result ndarray :=
  let known := prod (omap id newshape) in
  let total := prod (shape a) in
  match length (filter (fun d => d = None) newshape) with
  | 0 =>
      if total =? known
      then Ok (mk_ndarray (dtype_of a) (omap id newshape) (data a))
      else Raise ValueError
  | 1 =>
      if (known =? 0) || negb (Nat.modulo total known =? 0)
      then Raise ValueError
      else Ok (mk_ndarray (dtype_of a)
                 (map (fun d => default (Nat.div total known) d) newshape)
                 (data a))
  | _ => Raise ValueError
  end.

(** [a.T]: the axes in reverse order. *)
Definition transpose (a : ndarray) : ndarray :=
  let sh := shape a in
  mk_ndarray (dtype_of a) (rev sh)
    (tabulate (prod (rev sh))
       (fun k => getitem (data a) (ravel sh (rev (unravel (rev sh) k))))).

(** The values of the two operations that accumulate.
    [matmul a b] holds the elements, row after row, of [a.dot(b)] for two
    arrays of one dtype, of one axis at least, whose shapes are aligned;
    [sum_axis0 a] holds those of [a.sum(0)] for an array of one axis at
    least. *)
Class Backend : Type := {
  matmul : ndarray -> ndarray -> list scalar;
  sum_axis0 : ndarray -> list scalar
}.

(** [a.dot(b)]: the sum of products over the last axis of [a] and the
    second-to-last axis of [b] (the only axis of a 1-d [b]), computed by the
    backend in the common dtype; a 0-d operand multiplies as a scalar. *)
Definition dot {BK : Backend} (a b : ndarray) : result ndarray :=
  let dt := result_type (dtype_of a) (dtype_of b) in
  let a' := astype dt a in
  let b' := astype dt b in
  match rev (shape a), rev (shape b) with
  | [], _ =>
      Ok (mk_ndarray dt (shape b)
            (map (f_mul dt (getitem (data a') 0)) (data b')))
  | _, [] =>
      Ok (mk_ndarray dt (shape a)
            (map (fun x => f_mul dt x (getitem (data b') 0)) (data a')))
  | n :: rsa, [n'] =>
      if n =? n'
      then Ok (mk_ndarray dt (rev rsa) (matmul a' b'))
      else Raise ValueError
  | n :: rsa, m :: n' :: rsb =>
      if n =? n'
      then Ok (mk_ndarray dt (rev rsa ++ rev rsb ++ [m]) (matmul a' b'))
      else Raise ValueError
  end.

(** Can an array of (reversed) shape [rb] be broadcast to (reversed) shape
    [ra]?  Axes are matched from the last one; a missing or length-1 axis of
    [b] is stretched. *)
Fixpoint broadcastable (rb ra : list nat) : bool :=
  match rb, ra with
  | [], _ => true
  | _ :: _, [] => false
  | db :: rb', da :: ra' => ((db =? da) || (db =? 1)) && broadcastable rb' ra'
  end.

(** The (reversed) multi-index read in [b] for the (reversed) multi-index
    [ridx] of the result. *)
Fixpoint broadcast_index (rb ridx : list nat) : list nat :=
  match rb, ridx with
  | db :: rb', i :: ridx' =>
      (if db =? 1 then 0 else i) :: broadcast_index rb' ridx'
  | _, _ => []
  end.

(** [a += b]: the sum is computed in the common dtype and stored back into
    [a], whose dtype and shape do not change. *)
Definition iadd (a b : ndarray) : result ndarray :=
  let dt := result_type (dtype_of a) (dtype_of b) in
  let ad := data (astype dt a) in
  let bd := data (astype dt b) in
  if broadcastable (rev (shape b)) (rev (shape a))
  then Ok (mk_ndarray (dtype_of a) (shape a)
             (tabulate (prod (shape a))
                (fun k =>
                   let kb := ravel (shape b)
                               (rev (broadcast_index (rev (shape b))
                                       (rev (unravel (shape a) k)))) in
                   convert dt (dtype_of a)
                     (f_add dt (getitem ad k) (getitem bd kb)))))
  else Raise ValueError.

(** [a.sum(0)]: the sum over the first axis, computed by the backend. *)
Definition sum0 {BK : Backend} (a : ndarray) : result ndarray :=
  match shape a with
  | [] => Raise ValueError
  | _ :: rest => Ok (mk_ndarray (dtype_of a) rest (sum_axis0 a))
  end.

(** [numpy.repeat(numpy.float32(v), n)] *)
Definition repeat_float32 (v : scalar) (n : nat) : ndarray :=
  mk_ndarray float32 [n] (repeat (f_round float32 v) n).

(** [numpy.zeros_like(a)] *)
Definition zeros_like (a : ndarray) : ndarray :=
  mk_ndarray (dtype_of a) (shape a) (repeat fzero (prod (shape a))).

(** [numpy.array(rows, dtype=dt)] for a nested list of integers. *)
Definition array2 (dt : dtype) (rows : list (list Z)) : ndarray :=
  mk_ndarray dt [length rows; length (hd [] rows)]
    (map (of_Z dt) (concat rows)).

(** [numpy.array(l, dtype=dt)] for a list of integers. *)
Definition array1 (dt : dtype) (l : list Z) : ndarray :=
  mk_ndarray dt [length l] (map (of_Z dt) l).

(** ** The textbook backend *)

(** [fsum dt n term] is [term 0 + term 1 + ... + term (n-1)] in dtype [dt],
    accumulated from left to right, starting from [+0]. *)
Definition fsum (dt : dtype) (n : nat) (term : nat -> scalar) : scalar :=
  fold_left (fun acc j => f_add dt acc (term j)) (seq 0 n) fzero.

(** With [a] seen as an [(A, n)] matrix and [b] as a [(B, n, m)] block,
    entry [(i, k, l)] of the product is [sum_j a[i,j] * b[k,j,l]]. *)
Definition dot_entry (dt : dtype) (ad bd : list scalar) (n B m : nat) (p : nat)
  : scalar :=
  let i := Nat.div p (B * m) in
  let k := Nat.modulo (Nat.div p m) B in
  let l := Nat.modulo p m in
  fsum dt n (fun j => f_mul dt (getitem ad (i * n + j))
                               (getitem bd ((k * n + j) * m + l))).

Definition textbook_matmul (a b : ndarray) : list scalar :=
  let dt := dtype_of a in
  match rev (shape a), rev (shape b) with
  | n :: rsa, [_] =>
      tabulate (prod rsa) (dot_entry dt (data a) (data b) n 1 1)
  | n :: rsa, m :: _ :: rsb =>
      tabulate (prod rsa * prod rsb * m)
        (dot_entry dt (data a) (data b) n (prod rsb) m)
  | _, _ => []
  end.

Definition textbook_sum_axis0 (a : ndarray) : list scalar :=
  match shape a with
  | [] => []
  | n :: rest =>
      tabulate (prod rest)
        (fun k => fsum (dtype_of a) n
                    (fun i => getitem (data a) (i * prod rest + k)))
  end.

Definition textbook : Backend :=
  {| matmul := textbook_matmul; sum_axis0 := textbook_sum_axis0 |}.

End numpy.

Import numpy.

(* ===================================================================== *)
(** * chainer.utils.type_check                                            *)
(* ===================================================================== *)

(** What the type check sees of an input array. *)
Record TypeInfo : Type := mk_TypeInfo {
  ti_shape : list nat;
  ti_dtype : dtype
}.

Definition ti_ndim (t : TypeInfo) : nat := length (ti_shape t).

Definition get_types (in_data : list ndarray) : list TypeInfo :=
  map (fun a => mk_TypeInfo (shape a) (dtype_of a)) in_data.

(** Modelled from the spec: [type_check.expect], which is not part of this
    module.  It is given the expected predicates and goes through them in
    order, raising a descriptive error at the first one that fails.  A
    predicate is an expression evaluated only when its turn comes, so the
    evaluation itself may raise. *)
Fixpoint expect (preds : list (result bool)) : result unit :=
  match preds with
  | [] => Ok tt
  | Ok true :: rest => expect rest
  | Ok false :: _ => Raise InvalidType
  | Raise e :: _ => Raise e
  end.

(** Modelled from the spec: the call contract of the graph engine
    ([function.Function.__call__], not part of this module), on the arrays
    it passes: the type check of the function runs on the inputs' types
    before [forward] is invoked, and a raised error prevents the call. *)
Definition Function_call {S : Type}
    (check_type_forward : list TypeInfo -> result unit)
    (forward : list ndarray -> result (S * list ndarray))
    (in_data : list ndarray) : result (S * list ndarray) :=
  _ ← check_type_forward (get_types in_data);
  forward in_data.

(* ===================================================================== *)
(** * chainer.functions.connection.linear                                 *)
(* ===================================================================== *)

Section linear.

Context {BK : Backend}.

(** [numpy.random.normal(loc, scale, size)]: the draws of the generator,
    which raises on arguments it refuses, a negative scale for one. *)
Variable random_normal : scalar -> scalar -> list nat -> result (list scalar).

Definition _as_mat (x : ndarray) : result ndarray :=
  if ndim x =? 2 then Ok x
  else n ← len x; reshape x [Some n; None].

(** The state of a [Linear] object: the two dicts it inherits from
    [model.Model]. *)
Record Linear : Type := mk_Linear {
  params : gmap string ndarray;
  grads : gmap string ndarray
}.

(** Modelled from the spec: the gradient accumulators of [model.Model],
    which is not part of this module.  There is one per parameter, of the
    parameter's shape, initialized to zero; [zerograds] resets them all to
    zero. *)
Definition zerograds (self : Linear) : Linear :=
  mk_Linear (params self) (zeros_like <$> params self).

(** [wscale * math.sqrt(1. / in_size)] *)
Definition init_scale (wscale : scalar) (in_size : nat) : result scalar :=
  if in_size =? 0 then Raise ZeroDivisionError
  else Ok (f_mul float64 wscale
             (SFsqrt 53 1024
                (SFdiv 53 1024 (of_Z float64 1)
                   (of_Z float64 (Z.of_nat in_size))))).

(** [Linear.__init__].  The weight drawn at random is the draw of the
    generator; the accumulators are those of [zerograds] above. *)
Definition Linear_init (in_size out_size : nat) (wscale bias : scalar)
    (nobias : bool) (initialW initial_bias : option ndarray) : result Linear :=
  W ← match initialW with
      | Some initialW =>
          _ ← py_assert (bool_decide (shape initialW = [out_size; in_size]));
          Ok initialW
      | None =>
          scale ← init_scale wscale in_size;
          draws ← random_normal fzero scale [out_size; in_size];
          Ok (astype float32 (mk_ndarray float64 [out_size; in_size] draws))
      end;
  let params := <["W" := W]> (∅ : gmap string ndarray) in
  params ← match initial_bias with
           | Some initial_bias =>
               _ ← py_assert (bool_decide (shape initial_bias = [out_size]));
               Ok (<["b" := initial_bias]> params)
           | None =>
               if negb nobias
               then Ok (<["b" := repeat_float32 bias out_size]> params)
               else Ok params
           end;
  Ok (mk_Linear params (zeros_like <$> params)).

Definition Linear_check_type_forward (self : Linear) (in_types : list TypeInfo)
  : result unit :=
  _ ← expect [Ok (length in_types =? 1)];
  x_type ← match in_types with [x_type] => Ok x_type | _ => Raise ValueError end;
  W ← py_getitem (params self) "W";
  W_shape_1 ← py_index (shape W) 1;
  expect [ Ok (bool_decide (ti_dtype x_type = float32));
           Ok (2 <=? ti_ndim x_type);
           Ok (prod (drop 1 (ti_shape x_type)) =? W_shape_1) ].

Definition Linear_forward (self : Linear) (x : list ndarray)
  : result (list ndarray) :=
  x0 ← py_index x 0;
  x ← _as_mat x0;
  W ← py_getitem (params self) "W";
  Wx ← dot x (transpose W);
  match params self !! "b" with
  | Some b => Wx ← iadd Wx b; Ok [Wx]
  | None => Ok [Wx]
  end.

(** The accumulators are arrays updated in place; the updated array is
    stored back under its key. *)
Definition Linear_backward (self : Linear) (x gy : list ndarray)
  : result (Linear * list ndarray) :=
  x0 ← py_index x 0;
  _x ← _as_mat x0;
  gW ← py_getitem (grads self) "W";
  gy0 ← py_index gy 0;
  gWx ← dot (transpose gy0) _x;
  gW ← iadd gW gWx;
  let grads1 := <["W" := gW]> (grads self) in
  grads2 ← match grads1 !! "b" with
           | Some gb =>
               s ← sum0 gy0;
               gb ← iadd gb s;
               Ok (<["b" := gb]> grads1)
           | None => Ok grads1
           end;
  W ← py_getitem (params self) "W";
  gx ← dot gy0 W;
  gx ← reshape gx (Some <$> shape x0);
  Ok (mk_Linear (params self) grads2, [gx]).

(** [Linear] invoked by the engine. *)
Definition Linear_call (self : Linear) (in_data : list ndarray)
  : result (Linear * list ndarray) :=
  Function_call (Linear_check_type_forward self)
    (fun x => y ← Linear_forward self x; Ok (self, y)) in_data.

(** The state of a [NonparameterizedLinear] object: the attribute [func],
    absent until [forward] has run. *)
Record NonparameterizedLinear : Type := mk_NonparameterizedLinear {
  func : option Linear
}.

Definition NonparameterizedLinear_new : NonparameterizedLinear :=
  mk_NonparameterizedLinear None.

Definition NonparameterizedLinear_check_type_forward
    (in_types : list TypeInfo) : result unit :=
  _ ← expect [ Ok (2 <=? length in_types); Ok (length in_types <=? 3) ];
  x_type ← py_index in_types 0;
  w_type ← py_index in_types 1;
  _ ← expect [ Ok (bool_decide (ti_dtype x_type = float32));
               Ok (bool_decide (ti_dtype w_type = float32));
               Ok (2 <=? ti_ndim x_type);
               Ok (ti_ndim w_type =? 2);
               (w1 ← py_index (ti_shape w_type) 1;
                Ok (prod (drop 1 (ti_shape x_type)) =? w1)) ];
  if length in_types =? 3 then
    b_type ← py_index in_types 2;
    expect [ Ok (ti_ndim b_type =? 1);
             (b0 ← py_index (ti_shape b_type) 0;
              w0 ← py_index (ti_shape w_type) 0;
              Ok (b0 =? w0)) ]
  else Ok tt.

(** The inputs are host arrays, for which the accelerator test of [forward]
    is false and [to_gpu] is not called. *)
Definition NonparameterizedLinear_forward (self : NonparameterizedLinear)
    (x : list ndarray) : result (NonparameterizedLinear * list ndarray) :=
  W ← py_index x 1;
  sizes ← match shape W with
          | [out_size; in_size] => Ok (out_size, in_size)
          | _ => Raise ValueError
          end;
  let '(out_size, in_size) := sizes in
  func ← (if length x =? 3 then
            b ← py_index x 2;
            Linear_init in_size out_size (of_Z float64 1) (of_Z float64 0)
              false (Some W) (Some b)
          else
            Linear_init in_size out_size (of_Z float64 1) (of_Z float64 0)
              true (Some W) None);
  y ← Linear_forward func (take 1 x);
  Ok (mk_NonparameterizedLinear (Some func), y).

Definition NonparameterizedLinear_backward (self : NonparameterizedLinear)
    (x gy : list ndarray) : result (NonparameterizedLinear * list ndarray) :=
  func ← match func self with
         | Some func => Ok func
         | None => Raise AttributeError
         end;
  let func := zerograds func in
  r ← Linear_backward func (take 1 x) gy;
  let '(func, gx) := r in
  let self := mk_NonparameterizedLinear (Some func) in
  match grads func !! "b" with
  | None =>
      gx0 ← py_index gx 0;
      gW ← py_getitem (grads func) "W";
      Ok (self, [gx0; gW])
  | Some gb =>
      gx0 ← py_index gx 0;
      gW ← py_getitem (grads func) "W";
      Ok (self, [gx0; gW; gb])
  end.

(** [NonparameterizedLinear()(...)]: the fresh instance invoked by the
    engine. *)
Definition NonparameterizedLinear_call (in_data : list ndarray)
  : result (NonparameterizedLinear * list ndarray) :=
  Function_call NonparameterizedLinear_check_type_forward
    (NonparameterizedLinear_forward NonparameterizedLinear_new) in_data.

(** [linear(x, W, b=None)], on the arrays of its variables; the instance
    created for the call is returned along with the output, as the graph
    keeps it for the backward pass. *)
Definition linear (x W : ndarray) (b : option ndarray)
  : result (NonparameterizedLinear * list ndarray) :=
  match b with
  | None => NonparameterizedLinear_call [x; W]
  | Some b => NonparameterizedLinear_call [x; W; b]
  end.

End linear.

(* ===================================================================== *)
(** * Matrices in row-major order                                         *)
(* ===================================================================== *)

(** The [r] x [c] matrix whose entry [(i, j)] is [f i j], row after row. *)
Definition matrix (r c : nat) (f : nat -> nat -> scalar) : list scalar :=
  concat (map (fun i => map (f i) (seq 0 c)) (seq 0 r)).

(** Entry [(i, j)] of the row-major data of a matrix with [c] columns. *)
Definition entry (d : list scalar) (c i j : nat) : scalar :=
  getitem d (i * c + j).

(* ===================================================================== *)
(** * What the layer computes                                             *)
(* ===================================================================== *)

(** [X . W^T] for the input seen as a [(batch, in_size)] matrix, and [b]
    added to each of its rows when there is a bias. *)
Definition affine {BK : Backend} (x W : ndarray) (b : option ndarray)
    (batch in_size out_size : nat) : list scalar :=
  let xw := matmul (mk_ndarray float32 [batch; in_size] (data x))
              (transpose W) in
  match b with
  | None => xw
  | Some b =>
      matrix batch out_size
        (fun i j => f_add float32 (entry xw out_size i j) (getitem (data b) j))
  end.

(** [gy^T . X] for the input seen as a [(batch, in_size)] matrix. *)
Definition grad_W {BK : Backend} (gy x : ndarray) (batch in_size : nat)
  : list scalar :=
  matmul (transpose gy) (mk_ndarray float32 [batch; in_size] (data x)).

(** The column sum of [gy]. *)
Definition grad_b {BK : Backend} (gy : ndarray) : list scalar := sum_axis0 gy.

(** [gy . W] *)
Definition grad_x {BK : Backend} (gy W : ndarray) : list scalar := matmul gy W.

(** [acc + g], entry by entry, for an [r] x [c] matrix [g]. *)
Definition accumulate2 (acc : ndarray) (r c : nat) (g : list scalar)
  : ndarray :=
  mk_ndarray float32 [r; c]
    (matrix r c (fun i j =>
       f_add float32 (entry (data acc) c i j) (entry g c i j))).

(** [acc + g], entry by entry, for a vector [g] of length [n]. *)
Definition accumulate1 (acc : ndarray) (n : nat) (g : list scalar) : ndarray :=
  mk_ndarray float32 [n]
    (tabulate n (fun j => f_add float32 (getitem (data acc) j) (getitem g j))).

(** Twice an array: each entry added to itself. *)
Definition twice (a : ndarray) : ndarray :=
  mk_ndarray (dtype_of a) (shape a)
    (map (fun v => f_add (dtype_of a) v v) (data a)).

(** ** Valid arguments *)

(** What [check_type_forward] demands of the input of a layer with
    [in_size] inputs, for an input that [_as_mat] can flatten: it has two
    axes already, or its batch is not empty. *)
Definition valid_input (x : ndarray) (batch in_size : nat) : Prop :=
  dtype_of x = float32 /\ 2 <= ndim x /\ prod (drop 1 (shape x)) = in_size /\
  head (shape x) = Some batch /\ (ndim x = 2 \/ 1 <= batch).

Definition valid_weight (W : ndarray) (out_size in_size : nat) : Prop :=
  dtype_of W = float32 /\ shape W = [out_size; in_size].

Definition valid_bias (b : option ndarray) (out_size : nat) : Prop :=
  match b with
  | None => True
  | Some b => dtype_of b = float32 /\ shape b = [out_size]
  end.

Definition valid_gy (gy : ndarray) (batch out_size : nat) : Prop :=
  dtype_of gy = float32 /\ shape gy = [batch; out_size].

(** The parameters of a layer. *)
Definition has_params (self : Linear) (W : ndarray) (b : option ndarray) : Prop :=
  params self !! "W" = Some W /\ params self !! "b" = b.

(** The gradient accumulators of a layer: one per parameter. *)
Definition has_grads (self : Linear) (gW : ndarray) (gb : option ndarray) : Prop :=
  grads self !! "W" = Some gW /\ grads self !! "b" = gb /\
  (is_Some gb <-> is_Some (params self !! "b")).

(** The accumulators after one [backward]. *)
Definition grads_after {BK : Backend} (g : gmap string ndarray) (gW : ndarray)
    (gb : option ndarray) (x gy : ndarray) (batch in_size out_size : nat)
  : gmap string ndarray :=
  let g1 := <["W" := accumulate2 gW out_size in_size
                       (grad_W gy x batch in_size)]> g in
  match gb with
  | Some gb => <["b" := accumulate1 gb out_size (grad_b gy)]> g1
  | None => g1
  end.

(** The layer that adopts [W] and, when given, [b]. *)
Definition layer_of (W : ndarray) (b : option ndarray) : Linear :=
  let p := match b with
           | Some b => <["b" := b]> (<["W" := W]> (∅ : gmap string ndarray))
           | None => <["W" := W]> (∅ : gmap string ndarray)
           end in
  mk_Linear p (zeros_like <$> p).

(** What a single [backward] leaves in zeroed accumulators. *)
Definition single_grad_W {BK : Backend} (x gy W : ndarray)
    (batch in_size out_size : nat) : ndarray :=
  accumulate2 (zeros_like W) out_size in_size (grad_W gy x batch in_size).

Definition single_grad_b {BK : Backend} (gy b : ndarray) (out_size : nat)
  : ndarray :=
  accumulate1 (zeros_like b) out_size (grad_b gy).

Definition input_grad {BK : Backend} (x gy W : ndarray) : ndarray :=
  mk_ndarray float32 (shape x) (grad_x gy W).

(** The parameterized operator the one-shot call is compared with: it is
    constructed with initial weight [W] and initial bias [b], without a bias
    when [b] is omitted. *)
Definition reference_operator
    (rn : scalar -> scalar -> list nat -> result (list scalar))
    (W : ndarray) (b : option ndarray) (in_size out_size : nat) : result Linear :=
  Linear_init rn in_size out_size (of_Z float64 1) (of_Z float64 0)
    (match b with None => true | Some _ => false end) (Some W) b.

(** Its [forward] on [x]. *)
Definition reference_forward {BK : Backend}
    (rn : scalar -> scalar -> list nat -> result (list scalar))
    (x W : ndarray) (b : option ndarray) (in_size out_size : nat)
  : result (list ndarray) :=
  f ← reference_operator rn W b in_size out_size;
  Linear_forward f [x].

(** Its [backward] on [x] and [gy], the accumulators zeroed just before:
    the input gradient, followed by the accumulators read afterwards. *)
Definition reference_backward {BK : Backend}
    (rn : scalar -> scalar -> list nat -> result (list scalar))
    (x W : ndarray) (b : option ndarray) (gy : ndarray) (in_size out_size : nat)
  : result (list ndarray) :=
  f ← reference_operator rn W b in_size out_size;
  r ← Linear_backward (zerograds f) [x] [gy];
  gx ← py_index r.2 0;
  gW ← py_getitem (grads r.1) "W";
  Ok (gx :: gW :: option_list (grads r.1 !! "b")).

(** The inputs the check of the nonparameterized operator lets through:
    [x] and [W], float32, [x] of at least two axes, [W] of two, the second
    as long as the axes of [x] after the first multiply to; and possibly
    [b], of one axis as long as the first axis of [W]. *)
Definition nl_accepts (in_types : list TypeInfo) : Prop :=
  exists x w out_size,
    ti_dtype x = float32 /\ ti_dtype w = float32 /\ 2 <= ti_ndim x /\
    ti_shape w = [out_size; prod (drop 1 (ti_shape x))] /\
    (in_types = [x; w] \/
     exists b, in_types = [x; w; b] /\ ti_shape b = [out_size]).

(** ** Concrete arrays *)

(** A generator that draws zeros and refuses nothing. *)
Definition no_random : scalar -> scalar -> list nat -> result (list scalar) :=
  fun _ _ size => Ok (repeat fzero (prod size)).

Definition ex_X := array2 float32 [[1;1;1];[1;1;1];[1;1;1];[1;1;1]]%Z.
Definition ex_W := array2 float32 [[1;1;1];[2;2;2]]%Z.
Definition ex_b := array1 float32 [0;1]%Z.
Definition ex_gy := array2 float32 [[1;2];[3;4];[5;6];[7;8]]%Z.

Definition ex_layer : Linear :=
  let p := <["b" := ex_b]> (<["W" := ex_W]> (∅ : gmap string ndarray)) in
  mk_Linear p (zeros_like <$> p).

Definition ex_X3 : ndarray :=
  mk_ndarray float32 [2; 3; 1] (map (of_Z float32) [1; 2; 3; 4; 5; 6]%Z).

Definition ex_gy2 := array2 float32 [[1; 2]; [3; 4]]%Z.

(** An empty batch of samples of shape [(2, 3)], a layer for such samples
    and an upstream gradient for the empty batch. *)
Definition ex_X0 : ndarray := mk_ndarray float32 [0; 2; 3] [].




(** Validity of concrete arguments is settled by computation. *)
Ltac valid_args :=
  unfold valid_input, valid_weight, valid_gy, valid_bias, has_params,
    has_grads, ndim;
  repeat split;
  first [ reflexivity | intros _; eexists; reflexivity | simpl; lia ].

(* ===================================================================== *)
(** * Facts about the array backend                                       *)
(* ===================================================================== *)

#[local] Arguments Nat.div : simpl never.
#[local] Arguments Nat.modulo : simpl never.

Lemma convert_same dt x : convert dt dt x = x.
Proof. unfold convert. destruct (decide (dt = dt)); congruence. Qed.

Lemma astype_same dt a : dtype_of a = dt -> data (astype dt a) = data a.
Proof.
  intros <-. simpl. rewrite <- (List.map_id (data a)) at 2.
  apply List.map_ext. intros x. apply convert_same.
Qed.

Lemma astype_id dt a : dtype_of a = dt -> astype dt a = a.
Proof.
  intros <-. destruct a as [dt sh d]. unfold astype. simpl. f_equal.
  rewrite <- (List.map_id d) at 2. apply List.map_ext. intros x.
  apply convert_same.
Qed.

Lemma result_type_same dt : result_type dt dt = dt.
Proof. destruct dt; reflexivity. Qed.

Lemma length_tabulate n f : length (tabulate n f) = n.
Proof. unfold tabulate. rewrite List.length_map. apply List.length_seq. Qed.

Lemma getitem_tabulate n f k : k < n -> getitem (tabulate n f) k = f k.
Proof.
  intros Hk. unfold getitem, tabulate.
  rewrite (List.nth_indep _ fzero (f 0)) by (rewrite List.length_map, List.length_seq; lia).
  rewrite List.map_nth, List.seq_nth by lia. reflexivity.
Qed.

Lemma tabulate_ext n f g :
  (forall k, k < n -> f k = g k) -> tabulate n f = tabulate n g.
Proof.
  intros H. unfold tabulate. apply List.map_ext_in.
  intros k Hk. apply List.in_seq in Hk. apply H. lia.
Qed.

Lemma rowmajor_div i j m : j < m -> Nat.div (i * m + j) m = i.
Proof.
  intros Hj. rewrite Nat.div_add_l by lia. rewrite Nat.div_small by lia. lia.
Qed.

Lemma rowmajor_mod i j m : j < m -> Nat.modulo (i * m + j) m = j.
Proof.
  intros Hj. rewrite Nat.add_comm, Nat.Div0.mod_add. apply Nat.mod_small. lia.
Qed.

Lemma div_lt_rows p r c : p < r * c -> Nat.div p c < r.
Proof.
  intros Hp. destruct c as [|c]; [lia|].
  apply Nat.Div0.div_lt_upper_bound. lia.
Qed.

Lemma mod_lt_cols p r c : p < r * c -> Nat.modulo p c < c.
Proof. intros Hp. apply Nat.mod_upper_bound. lia. Qed.

Lemma map_seq_from {A} (g : nat -> A) a n :
  map g (seq a n) = map (fun j => g (a + j)) (seq 0 n).
Proof.
  revert g a. induction n as [|n IH]; intros g a; simpl.
  - reflexivity.
  - rewrite Nat.add_0_r. f_equal.
    rewrite (IH g (S a)), (IH (fun j => g (a + j)) 1).
    apply List.map_ext. intros j. f_equal. lia.
Qed.

Lemma matrix_tabulate r c f :
  matrix r c f = tabulate (r * c) (fun p => f (Nat.div p c) (Nat.modulo p c)).
Proof.
  unfold matrix, tabulate. induction r as [|r IH].
  - reflexivity.
  - rewrite List.seq_S, List.map_app, List.concat_app, IH. simpl.
    replace (c + r * c) with (r * c + c) by lia.
    rewrite List.seq_app, List.map_app, List.app_nil_r. f_equal. simpl.
    rewrite (map_seq_from _ (r * c)). apply List.map_ext_in.
    intros j Hj. apply List.in_seq in Hj.
    rewrite rowmajor_div, rowmajor_mod by lia. reflexivity.
Qed.

Lemma matrix_ext r c f g :
  (forall i j, i < r -> j < c -> f i j = g i j) -> matrix r c f = matrix r c g.
Proof.
  intros H. rewrite !matrix_tabulate. apply tabulate_ext. intros p Hp.
  apply H; [eapply div_lt_rows | eapply mod_lt_cols]; eassumption.
Qed.

Lemma entry_matrix r c f i j :
  i < r -> j < c -> entry (matrix r c f) c i j = f i j.
Proof.
  intros Hi Hj. unfold entry. rewrite matrix_tabulate, getitem_tabulate by nia.
  rewrite rowmajor_div, rowmajor_mod by lia. reflexivity.
Qed.

Lemma entry_div_mod d c p : entry d c (Nat.div p c) (Nat.modulo p c) = getitem d p.
Proof.
  unfold entry. f_equal. rewrite (Nat.div_mod_eq p c) at 3. lia.
Qed.

(** ** [dot] of two matrices *)

Lemma dot_2d {BK : Backend} a b dt r n m :
  dtype_of a = dt -> dtype_of b = dt ->
  shape a = [r; n] -> shape b = [n; m] ->
  dot a b = Ok (mk_ndarray dt [r; m] (matmul a b)).
Proof.
  intros Ha Hb Hsa Hsb. unfold dot.
  rewrite Ha, Hb, result_type_same, !astype_id, Hsa, Hsb by assumption.
  cbn [rev app]. rewrite Nat.eqb_refl. reflexivity.
Qed.

(** ** [+=] *)

Lemma iadd_row a b dt r c :
  dtype_of a = dt -> dtype_of b = dt ->
  shape a = [r; c] -> shape b = [c] ->
  iadd a b
  = Ok (mk_ndarray dt [r; c]
          (matrix r c (fun i j =>
             f_add dt (entry (data a) c i j) (getitem (data b) j)))).
Proof.
  intros Ha Hb Hsa Hsb. unfold iadd.
  rewrite Ha, Hb, result_type_same, !astype_same, Hsa, Hsb by assumption.
  cbn [rev app broadcastable]. rewrite Nat.eqb_refl. cbn [orb andb].
  f_equal. f_equal. rewrite matrix_tabulate. cbn [prod fold_right].
  rewrite Nat.mul_1_r. apply tabulate_ext. intros k Hk.
  rewrite convert_same, entry_div_mod. f_equal. f_equal.
  cbn [unravel rev app broadcast_index ravel prod fold_right].
  rewrite !Nat.mul_1_r, Nat.div_1_r, Nat.add_0_r.
  destruct (Nat.eqb_spec c 1) as [->|_]; [|reflexivity].
  rewrite Nat.mod_1_r. reflexivity.
Qed.

Lemma iadd_same_2d a b dt r c :
  dtype_of a = dt -> dtype_of b = dt ->
  shape a = [r; c] -> shape b = [r; c] ->
  iadd a b
  = Ok (mk_ndarray dt [r; c]
          (matrix r c (fun i j =>
             f_add dt (entry (data a) c i j) (entry (data b) c i j)))).
Proof.
  intros Ha Hb Hsa Hsb. unfold iadd.
  rewrite Ha, Hb, result_type_same, !astype_same, Hsa, Hsb by assumption.
  cbn [rev app broadcastable]. rewrite !Nat.eqb_refl. cbn [orb andb].
  f_equal. f_equal. rewrite matrix_tabulate. cbn [prod fold_right].
  rewrite Nat.mul_1_r. apply tabulate_ext. intros k Hk.
  rewrite convert_same, !entry_div_mod. f_equal. f_equal.
  cbn [unravel rev app broadcast_index ravel prod fold_right].
  rewrite !Nat.mul_1_r, Nat.div_1_r, Nat.add_0_r.
  assert (Hdm := Nat.div_mod_eq k c).
  destruct (Nat.eqb_spec c 1) as [->|_]; destruct (Nat.eqb_spec r 1) as [->|_].
  - rewrite Nat.mod_1_r, Nat.div_1_r in *. lia.
  - rewrite Nat.mod_1_r, Nat.div_1_r in *. lia.
  - rewrite Nat.mod_small by lia. lia.
  - lia.
Qed.

Lemma iadd_same_1d a b dt n :
  dtype_of a = dt -> dtype_of b = dt ->
  shape a = [n] -> shape b = [n] ->
  iadd a b
  = Ok (mk_ndarray dt [n]
          (tabulate n (fun j => f_add dt (getitem (data a) j) (getitem (data b) j)))).
Proof.
  intros Ha Hb Hsa Hsb. unfold iadd.
  rewrite Ha, Hb, result_type_same, !astype_same, Hsa, Hsb by assumption.
  cbn [rev app broadcastable]. rewrite !Nat.eqb_refl. cbn [orb andb].
  f_equal. f_equal. cbn [prod fold_right].
  rewrite Nat.mul_1_r. apply tabulate_ext. intros k Hk.
  rewrite convert_same. f_equal. f_equal.
  cbn [unravel rev app broadcast_index ravel prod fold_right].
  rewrite !Nat.mul_1_r, Nat.div_1_r, Nat.add_0_r.
  destruct (Nat.eqb_spec n 1) as [->|_]; lia.
Qed.

(** ** [sum(0)] of a matrix *)

Lemma sum0_2d {BK : Backend} a r c :
  shape a = [r; c] ->
  sum0 a = Ok (mk_ndarray (dtype_of a) [c] (sum_axis0 a)).
Proof. intros Hs. unfold sum0. rewrite Hs. reflexivity. Qed.

(** ** [reshape] *)

Lemma reshape_explicit a sh :
  prod (shape a) = prod sh ->
  reshape a (Some <$> sh) = Ok (mk_ndarray (dtype_of a) sh (data a)).
Proof.
  intros Hp. unfold reshape.
  assert (Hf : filter (fun d : option nat => d = None) (Some <$> sh) = []).
  { clear Hp. induction sh as [|d sh IH]; [reflexivity|]. simpl.
    rewrite filter_cons_False by discriminate. apply IH. }
  assert (Ho : omap id (Some <$> sh) = sh).
  { clear Hp Hf. induction sh as [|d sh IH]; [reflexivity|]. simpl. f_equal. apply IH. }
  rewrite Hf, Ho. simpl. rewrite Hp, Nat.eqb_refl. reflexivity.
Qed.

(** ** The textbook backend on concrete arrays *)

Example ex_transpose :
  transpose (array2 float32 [[1; 2; 3]; [4; 5; 6]]%Z)
  = array2 float32 [[1; 4]; [2; 5]; [3; 6]]%Z.
Proof. vm_compute. reflexivity. Qed.

Example ex_dot :
  dot (BK := textbook) (array2 float32 [[1; 2; 3]; [4; 5; 6]]%Z)
      (array2 float32 [[1; 4]; [2; 5]; [3; 6]]%Z)
  = Ok (array2 float32 [[14; 32]; [32; 77]]%Z).
Proof. vm_compute. reflexivity. Qed.

Example ex_iadd :
  iadd (array2 float32 [[1; 2; 3]; [4; 5; 6]]%Z) (array1 float32 [10; 20; 30]%Z)
  = Ok (array2 float32 [[11; 22; 33]; [14; 25; 36]]%Z).
Proof. vm_compute. reflexivity. Qed.

Example ex_sum0 :
  sum0 (BK := textbook) (array2 float32 [[1; 2; 3]; [4; 5; 6]]%Z)
  = Ok (array1 float32 [5; 7; 9]%Z).
Proof. vm_compute. reflexivity. Qed.

(** The shapes are checked whatever the backend. *)
Example ex_dot_not_aligned {BK : Backend} :
  dot (array2 float32 [[1; 2; 3]; [4; 5; 6]]%Z)
      (array2 float32 [[1; 2; 3]; [4; 5; 6]]%Z)
  = Raise ValueError.
Proof. reflexivity. Qed.

Example ex_iadd_float64 :
  iadd (array1 float32 [1; 2]%Z) (array1 float64 [10; 20]%Z)
  = Ok (array1 float32 [11; 22]%Z).
Proof. vm_compute. reflexivity. Qed.

Example ex_transpose_3d :
  transpose (mk_ndarray float32 [1; 2; 3] (map (of_Z float32) [1; 2; 3; 4; 5; 6]%Z))
  = mk_ndarray float32 [3; 2; 1] (map (of_Z float32) [1; 4; 2; 5; 3; 6]%Z).
Proof. vm_compute. reflexivity. Qed.

Example ex_as_mat_3d :
  _as_mat (mk_ndarray float32 [2; 3; 1] (map (of_Z float32) [1; 2; 3; 4; 5; 6]%Z))
  = Ok (array2 float32 [[1; 2; 3]; [4; 5; 6]]%Z).
Proof. vm_compute. reflexivity. Qed.

(** A dimension given as [-1] cannot be inferred next to a dimension 0. *)
Example ex_as_mat_empty_batch : _as_mat ex_X0 = Raise ValueError.
Proof. reflexivity. Qed.

(* ===================================================================== *)
(** * Facts about the layer                                               *)
(* ===================================================================== *)

Lemma _as_mat_valid x batch in_size :
  valid_input x batch in_size ->
  _as_mat x = Ok (mk_ndarray float32 [batch; in_size] (data x)).
Proof.
  intros (Hd & Hn & Hp & Hh & Hb). unfold _as_mat, ndim in *.
  destruct x as [dt sh d]. simpl in *. subst dt.
  destruct sh as [|n rest]; [discriminate|]. simpl in *.
  injection Hh as ->. rewrite drop_0 in Hp.
  destruct rest as [|m [|m' rest]]; simpl in *; [lia| |].
  - rewrite Nat.mul_1_r in Hp. subst m. reflexivity.
  - destruct Hb as [Hb|Hb]; [lia|].
    unfold len, reshape. simpl.
    rewrite Nat.mul_1_r, Hp.
    destruct (Nat.eqb_spec batch 0) as [?|_]; [lia|].
    rewrite (Nat.mul_comm batch in_size), Nat.Div0.mod_mul, Nat.div_mul by lia.
    reflexivity.
Qed.

Lemma Linear_forward_valid {BK : Backend} self x W b batch in_size out_size :
  valid_input x batch in_size ->
  has_params self W b ->
  valid_weight W out_size in_size ->
  valid_bias b out_size ->
  Linear_forward self [x]
  = Ok [mk_ndarray float32 [batch; out_size]
          (affine x W b batch in_size out_size)].
Proof.
  intros Hx [HW Hb] [HWd HWs] Hvb. unfold Linear_forward, affine.
  simpl. rewrite (_as_mat_valid _ _ _ Hx). simpl.
  unfold py_getitem. rewrite HW. simpl.
  erewrite dot_2d; [| reflexivity | exact HWd | reflexivity
                    | unfold transpose; rewrite HWs; reflexivity ].
  simpl. rewrite Hb.
  destruct b as [b|]; simpl; [|reflexivity].
  destruct Hvb as [Hbd Hbs].
  erewrite iadd_row; [| reflexivity | exact Hbd | reflexivity | exact Hbs ].
  reflexivity.
Qed.

Lemma valid_input_size x batch in_size :
  valid_input x batch in_size -> prod (shape x) = batch * in_size.
Proof.
  intros (_ & _ & Hp & Hh & _). destruct (shape x) as [|n rest]; [discriminate|].
  injection Hh as ->. simpl in Hp. rewrite ?drop_0 in Hp. subst in_size. reflexivity.
Qed.

Lemma Linear_backward_valid {BK : Backend}
    self x gy W gW gb batch in_size out_size :
  valid_input x batch in_size ->
  valid_gy gy batch out_size ->
  params self !! "W" = Some W -> valid_weight W out_size in_size ->
  grads self !! "W" = Some gW -> valid_weight gW out_size in_size ->
  grads self !! "b" = gb -> valid_bias gb out_size ->
  Linear_backward self [x] [gy]
  = Ok (mk_Linear (params self)
          (grads_after (grads self) gW gb x gy batch in_size out_size),
        [mk_ndarray float32 (shape x) (grad_x gy W)]).
Proof.
  intros Hx [Hgd Hgs] HW [HWd HWs] HgW [HgWd HgWs] Hgb Hvb.
  unfold Linear_backward, grads_after, grad_W, grad_b, grad_x. simpl.
  rewrite (_as_mat_valid _ _ _ Hx). simpl.
  unfold py_getitem. rewrite HgW. simpl.
  erewrite dot_2d; [| exact Hgd | reflexivity
                    | unfold transpose; rewrite Hgs; reflexivity
                    | reflexivity ].
  simpl.
  erewrite iadd_same_2d; [| exact HgWd | reflexivity | exact HgWs | reflexivity ].
  simpl. rewrite lookup_insert_ne by discriminate. rewrite Hgb, HW. simpl.
  fold (accumulate2 gW out_size in_size
          (matmul (transpose gy)
             (mk_ndarray float32 [batch; in_size] (data x)))).
  assert (Hgx :
    (gx ← dot gy W; gx0 ← reshape gx (Some <$> shape x); Ok gx0)
    = Ok (mk_ndarray float32 (shape x) (matmul gy W))).
  { erewrite dot_2d; [| exact Hgd | exact HWd | exact Hgs | exact HWs ].
    simpl. rewrite reshape_explicit.
    - reflexivity.
    - simpl. rewrite (valid_input_size _ _ _ Hx). lia. }
  destruct gb as [gb|]; simpl.
  - destruct Hvb as [Hbd Hbs].
    rewrite (sum0_2d _ _ _ Hgs). simpl.
    erewrite iadd_same_1d; [| exact Hbd | exact Hgd | exact Hbs | reflexivity ].
    simpl. fold (accumulate1 gb out_size (sum_axis0 gy)).
    destruct (dot gy W) as [gx|e]; simpl in *; [|discriminate].
    destruct (reshape gx (Some <$> shape x)) as [gx0|e]; simpl in *; [|discriminate].
    injection Hgx as ->. reflexivity.
  - destruct (dot gy W) as [gx|e]; simpl in *; [|discriminate].
    destruct (reshape gx (Some <$> shape x)) as [gx0|e]; simpl in *; [|discriminate].
    injection Hgx as ->. reflexivity.
Qed.

(* ===================================================================== *)
(** * Shapes and errors of the array operations                           *)
(* ===================================================================== *)

(** [_as_mat], case by case on the shape of its argument. *)
Lemma _as_mat_cases x :
  (shape x = [] -> _as_mat x = Raise TypeError) /\
  (forall n m, shape x = [n; m] -> _as_mat x = Ok x) /\
  (forall rest, length rest <> 1 -> shape x = 0 :: rest ->
     _as_mat x = Raise ValueError) /\
  (forall n rest, length rest <> 1 -> n <> 0 -> shape x = n :: rest ->
     _as_mat x = Ok (mk_ndarray (dtype_of x) [n; prod rest] (data x))).
Proof.
  unfold _as_mat, ndim, len, reshape. repeat split.
  - intros ->. reflexivity.
  - intros n m ->. reflexivity.
  - intros rest Hl ->. cbn -[Nat.mul Nat.div Nat.modulo].
    destruct (Nat.eqb_spec (length rest) 1); [contradiction|]. reflexivity.
  - intros n rest Hl Hn ->. cbn -[Nat.mul Nat.div Nat.modulo].
    destruct (Nat.eqb_spec (length rest) 1); [contradiction|].
    cbn -[Nat.mul Nat.div Nat.modulo]. rewrite !Nat.mul_1_r.
    destruct (Nat.eqb_spec n 0); [contradiction|].
    rewrite (Nat.mul_comm n), Nat.Div0.mod_mul, Nat.div_mul by assumption.
    reflexivity.
Qed.

Lemma py_index_raises {A} (t : list A) i e :
  py_index t i = Raise e -> e = IndexError.
Proof. unfold py_index. destruct (nth_error t i); intros [=]; auto. Qed.

Lemma py_getitem_raises {A} (d : gmap string A) key e :
  py_getitem d key = Raise e -> e = KeyError.
Proof. unfold py_getitem. destruct (d !! key); intros [=]; auto. Qed.

Lemma _as_mat_raises x e :
  _as_mat x = Raise e -> e = TypeError \/ e = ValueError.
Proof.
  destruct (_as_mat_cases x) as (H0 & H2 & HV & HN).
  destruct (shape x) as [|n rest] eqn:Hs.
  - rewrite H0 by reflexivity. intros [= <-]. auto.
  - destruct (Nat.eq_dec (length rest) 1) as [Hl|Hl].
    + destruct rest as [|k [|? ?]]; try discriminate Hl.
      rewrite (H2 n k eq_refl). discriminate.
    + destruct n as [|n].
      * rewrite (HV rest Hl eq_refl). intros [= <-]. auto.
      * rewrite (HN (S n) rest Hl ltac:(lia) eq_refl). discriminate.
Qed.

Lemma dot_raises {BK : Backend} a b e : dot a b = Raise e -> e = ValueError.
Proof.
  unfold dot. destruct (rev (shape a)) as [|n rsa]; [discriminate|].
  destruct (rev (shape b)) as [|m [|n' rsb]]; [discriminate| |];
    destruct (n =? _); intros [=]; auto.
Qed.

Lemma iadd_raises a b e : iadd a b = Raise e -> e = ValueError.
Proof. unfold iadd. destruct (broadcastable _ _); intros [=]; auto. Qed.

Lemma sum0_raises {BK : Backend} a e : sum0 a = Raise e -> e = ValueError.
Proof. unfold sum0. destruct (shape a); intros [=]; auto. Qed.

Lemma reshape_raises a ns e : reshape a ns = Raise e -> e = ValueError.
Proof.
  unfold reshape. destruct (length _) as [|[|k]].
  - destruct (_ =? _); intros [=]; auto.
  - destruct (_ || _); intros [=]; auto.
  - intros [=]; auto.
Qed.

Lemma iadd_shape a b y :
  iadd a b = Ok y -> shape y = shape a /\ dtype_of y = dtype_of a.
Proof.
  unfold iadd. destruct (broadcastable _ _); intros [=]. subst y. auto.
Qed.

Lemma iadd_row_any a b r c :
  shape a = [r; c] -> shape b = [c] ->
  exists d, iadd a b = Ok (mk_ndarray (dtype_of a) [r; c] d).
Proof.
  intros Ha Hb. unfold iadd. rewrite Ha, Hb. cbn [rev app broadcastable].
  rewrite Nat.eqb_refl. cbn [orb andb]. eexists. reflexivity.
Qed.

Lemma dot_2d_any {BK : Backend} a b r n n' m :
  shape a = [r; n] -> shape b = [n'; m] ->
  (n = n' ->
   exists d,
     dot a b = Ok (mk_ndarray (result_type (dtype_of a) (dtype_of b)) [r; m] d)) /\
  (n <> n' -> dot a b = Raise ValueError).
Proof.
  intros Ha Hb. unfold dot. rewrite Ha, Hb. cbn [rev app]. split.
  - intros <-. rewrite Nat.eqb_refl. eexists. reflexivity.
  - intros Hn. destruct (Nat.eqb_spec n n'); [contradiction|reflexivity].
Qed.

Lemma reshape_explicit_inv a sh y :
  reshape a (Some <$> sh) = Ok y -> y = mk_ndarray (dtype_of a) sh (data a).
Proof.
  unfold reshape.
  assert (Hf : filter (fun d : option nat => d = None) (Some <$> sh) = []).
  { induction sh as [|d sh IH]; [reflexivity|]. simpl.
    rewrite filter_cons_False by discriminate. apply IH. }
  assert (Ho : omap id (Some <$> sh) = sh).
  { clear Hf. induction sh as [|d sh IH]; [reflexivity|]. simpl. f_equal.
    apply IH. }
  rewrite Hf, Ho. simpl. destruct (_ =? _); intros [=]. auto.
Qed.

(** [_as_mat] on an array of at least two axes and a batch that is not
    empty, whatever its dtype. *)
Lemma _as_mat_batch x batch rest :
  shape x = batch :: rest -> rest <> [] -> 1 <= batch ->
  _as_mat x = Ok (mk_ndarray (dtype_of x) [batch; prod rest] (data x)).
Proof.
  intros Hs Hr Hb. destruct (_as_mat_cases x) as (_ & H2 & _ & HN).
  destruct (Nat.eq_dec (length rest) 1) as [Hl|Hl].
  - destruct rest as [|k [|? ?]]; try discriminate Hl.
    rewrite (H2 batch k Hs). destruct x as [dt sh d]. simpl in *. subst sh.
    cbn -[Nat.mul]. rewrite Nat.mul_1_r. reflexivity.
  - apply HN; [assumption|lia|assumption].
Qed.

(** The verdict of the check of [Linear], for a layer whose weight has two
    axes. *)
Lemma Linear_check_type_forward_cases self W out_size in_size in_types :
  params self !! "W" = Some W -> shape W = [out_size; in_size] ->
  Linear_check_type_forward self in_types
  = match in_types with
    | [t] =>
        if bool_decide (ti_dtype t = float32) && (2 <=? ti_ndim t)
           && (prod (drop 1 (ti_shape t)) =? in_size)
        then Ok tt else Raise InvalidType
    | _ => Raise InvalidType
    end.
Proof.
  intros HW Hs. unfold Linear_check_type_forward, py_getitem.
  destruct in_types as [|t [|t' rest]]; try reflexivity.
  cbn -[Nat.leb]. rewrite HW. cbn -[Nat.leb]. rewrite Hs. cbn -[Nat.leb].
  destruct (bool_decide _); [|reflexivity].
  destruct (2 <=? ti_ndim t); [|reflexivity].
  destruct (_ =? _); reflexivity.
Qed.

(** [forward] on a batch that is not empty, whatever the dtypes. *)
Lemma Linear_forward_shape {BK : Backend} self W x batch rest out_size :
  params self !! "W" = Some W -> shape W = [out_size; prod rest] ->
  (forall b, params self !! "b" = Some b -> shape b = [out_size]) ->
  shape x = batch :: rest -> rest <> [] -> 1 <= batch ->
  exists d,
    Linear_forward self [x]
    = Ok [mk_ndarray (result_type (dtype_of x) (dtype_of W))
            [batch; out_size] d].
Proof.
  intros HW HsW Hbs Hs Hrest Hbatch.
  unfold Linear_forward. cbn [py_index nth_error mbind result_bind].
  rewrite (_as_mat_batch x batch rest Hs Hrest Hbatch).
  cbn [mbind result_bind]. unfold py_getitem. rewrite HW.
  cbn [mbind result_bind].
  destruct (dot_2d_any (mk_ndarray (dtype_of x) [batch; prod rest] (data x))
              (transpose W) batch (prod rest) (prod rest) out_size eq_refl)
    as [Hdot _].
  { unfold transpose. rewrite HsW. reflexivity. }
  destruct (Hdot eq_refl) as (d & ->). cbn [mbind result_bind].
  destruct (params self !! "b") as [b|] eqn:Hb.
  - match goal with
    | |- context [iadd ?a b] =>
        destruct (iadd_row_any a b batch out_size eq_refl (Hbs b eq_refl))
          as (d' & ->)
    end.
    cbn [mbind result_bind]. eexists. reflexivity.
  - eexists. reflexivity.
Qed.

(** ** The check of the nonparameterized operator *)

Lemma NonparameterizedLinear_check_accepts in_types :
  nl_accepts in_types ->
  NonparameterizedLinear_check_type_forward in_types = Ok tt.
Proof.
  intros (x & w & out_size & Hdx & Hdw & Hn & Hsw & Hin).
  unfold NonparameterizedLinear_check_type_forward, ti_ndim in *.
  destruct Hin as [->|(b & -> & Hsb)]; cbn -[Nat.leb];
    rewrite Hdx, Hdw, Hsw; cbn -[Nat.leb];
    destruct (Nat.leb_spec 2 (length (ti_shape x))); try lia;
    rewrite Nat.eqb_refl; cbn; rewrite ?Hsb; cbn;
    rewrite ?Nat.eqb_refl; reflexivity.
Qed.

Lemma NonparameterizedLinear_check_sound in_types :
  NonparameterizedLinear_check_type_forward in_types = Ok tt ->
  nl_accepts in_types.
Proof.
  unfold NonparameterizedLinear_check_type_forward, nl_accepts, ti_ndim.
  destruct in_types as [|x [|w [|b [|c rest]]]]; try discriminate.
  - cbn -[Nat.leb].
    destruct (bool_decide_reflect (ti_dtype x = float32)) as [Hdx|];
      [|discriminate].
    destruct (bool_decide_reflect (ti_dtype w = float32)) as [Hdw|];
      [|discriminate].
    destruct (Nat.leb_spec 2 (length (ti_shape x))) as [Hn|]; [|discriminate].
    destruct (ti_shape w) as [|o [|i [|? ?]]] eqn:Hsw; try discriminate.
    cbn. destruct (Nat.eqb_spec (prod (drop 1 (ti_shape x))) i) as [Hp|];
      [|discriminate].
    intros _. exists x, w, o. rewrite Hp. auto 10.
  - cbn -[Nat.leb].
    destruct (bool_decide_reflect (ti_dtype x = float32)) as [Hdx|];
      [|discriminate].
    destruct (bool_decide_reflect (ti_dtype w = float32)) as [Hdw|];
      [|discriminate].
    destruct (Nat.leb_spec 2 (length (ti_shape x))) as [Hn|]; [|discriminate].
    destruct (ti_shape w) as [|o [|i [|? ?]]] eqn:Hsw; try discriminate.
    cbn. destruct (Nat.eqb_spec (prod (drop 1 (ti_shape x))) i) as [Hp|];
      [|discriminate].
    cbn. destruct (ti_shape b) as [|b0 [|? ?]] eqn:Hsb; try discriminate.
    cbn. destruct (Nat.eqb_spec b0 o) as [->|]; [|discriminate].
    intros _. exists x, w, o. rewrite Hp.
    repeat split; auto. right. exists b. auto.
Qed.

Lemma NonparameterizedLinear_check_raises in_types e :
  NonparameterizedLinear_check_type_forward in_types = Raise e ->
  e = InvalidType.
Proof.
  unfold NonparameterizedLinear_check_type_forward, ti_ndim.
  destruct in_types as [|x [|w [|b [|c rest]]]];
    try (intros [= <-]; reflexivity).
  - cbn -[Nat.leb].
    destruct (bool_decide (ti_dtype x = float32));
      [|intros [= <-]; reflexivity].
    destruct (bool_decide (ti_dtype w = float32));
      [|intros [= <-]; reflexivity].
    destruct (2 <=? length (ti_shape x)); [|intros [= <-]; reflexivity].
    destruct (ti_shape w) as [|o [|i [|? ?]]];
      try (intros [= <-]; reflexivity).
    cbn. destruct (prod (drop 1 (ti_shape x)) =? i);
      [discriminate|intros [= <-]; reflexivity].
  - cbn -[Nat.leb].
    destruct (bool_decide (ti_dtype x = float32));
      [|intros [= <-]; reflexivity].
    destruct (bool_decide (ti_dtype w = float32));
      [|intros [= <-]; reflexivity].
    destruct (2 <=? length (ti_shape x)); [|intros [= <-]; reflexivity].
    destruct (ti_shape w) as [|o [|i [|? ?]]];
      try (intros [= <-]; reflexivity).
    cbn. destruct (prod (drop 1 (ti_shape x)) =? i);
      [|intros [= <-]; reflexivity].
    cbn. destruct (ti_shape b) as [|b0 [|? ?]];
      try (intros [= <-]; reflexivity).
    cbn. destruct (b0 =? o); [discriminate|intros [= <-]; reflexivity].
Qed.


(** ** [.T] of a matrix *)

Lemma transpose_2d a r c :
  shape a = [r; c] ->
  transpose a
  = mk_ndarray (dtype_of a) [c; r] (matrix c r (fun i j => entry (data a) c j i)).
Proof.
  intros Hs. unfold transpose. rewrite Hs. cbn [rev app]. f_equal.
  rewrite matrix_tabulate. cbn [prod fold_right]. rewrite Nat.mul_1_r.
  apply tabulate_ext. intros k Hk. unfold entry. f_equal.
  cbn [unravel ravel rev app prod fold_right].
  rewrite !Nat.mul_1_r, Nat.div_1_r. lia.
Qed.

Lemma entry_transpose a r c i j :
  shape a = [r; c] -> i < c -> j < r ->
  entry (data (transpose a)) r i j = entry (data a) c j i.
Proof.
  intros Hs Hi Hj. rewrite (transpose_2d a r c Hs). simpl.
  exact (entry_matrix c r (fun i j => entry (data a) c j i) i j Hi Hj).
Qed.

(* ===================================================================== *)
(** * The forward pass                                                    *)
(* ===================================================================== *)

(** C1.  For a valid input [x] (float32, at least two axes, [in_size]
    elements per sample, a batch of at least one sample or two axes
    already) and a layer whose
    weight [W] has shape [(out_size, in_size)], [forward] returns one
    float32 array of shape [(batch, out_size)].  It holds the product
    [X . W^T] of the backend, for [X] the input seen as a
    [(batch, in_size)] matrix and [W^T] the [(in_size, out_size)] matrix
    with [W^T[k,j] = W[j,k]], when the layer has no bias; when it has a
    bias [b] of shape [(out_size,)], entry [(i, j)] is that of the product
    plus [b[j]]. *)
Theorem Linear_forward_affine {BK : Backend}
    self x W b batch in_size out_size :
  valid_input x batch in_size ->
  has_params self W b ->
  valid_weight W out_size in_size ->
  valid_bias b out_size ->
  Linear_forward self [x]
  = Ok [mk_ndarray float32 [batch; out_size]
          (let xw := matmul (mk_ndarray float32 [batch; in_size] (data x))
                       (transpose W) in
           match b with
           | None => xw
           | Some b =>
               matrix batch out_size
                 (fun i j => f_add float32 (entry xw out_size i j)
                                           (getitem (data b) j))
           end)] /\
  shape (transpose W) = [in_size; out_size] /\
  (forall k j, k < in_size -> j < out_size ->
     entry (data (transpose W)) out_size k j = entry (data W) in_size j k).
Proof.
  intros Hx Hp HW Hb. split; [|split].
  - exact (Linear_forward_valid _ _ _ _ _ _ _ Hx Hp HW Hb).
  - destruct HW as [_ HsW]. unfold transpose. rewrite HsW. reflexivity.
  - intros k j Hk Hj. destruct HW as [_ HsW].
    apply entry_transpose; assumption.
Qed.

Lemma Linear_forward_affine_witness :
  Linear_forward (BK := textbook) ex_layer [ex_X]
  = Ok [array2 float32 [[3; 7]; [3; 7]; [3; 7]; [3; 7]]%Z].
Proof.
  destruct (Linear_forward_affine (BK := textbook) ex_layer ex_X ex_W
              (Some ex_b) 4 3 2 ltac:(valid_args) ltac:(valid_args)
              ltac:(valid_args) ltac:(valid_args)) as [H _].
  rewrite H. vm_compute. reflexivity.
Defined.

(** C3.  The end-to-end example: [in_size = 3], [out_size = 2], a batch of
    4, [X = ones(4,3)], [W = [[1,1,1],[2,2,2]]], [b = [0,1]], all float32.
    The second column is [1+1+1 times 2, plus 1], that is 7:
    [forward] returns [[3,7],[3,7],[3,7],[3,7]].  The sums of the example
    are sums of three small integers, which float32 holds exactly in
    whatever order they are taken; they are evaluated with the textbook
    product. *)
Theorem Linear_forward_example rn :
  (f ← Linear_init rn 3 2 (of_Z float64 1) (of_Z float64 0) false
         (Some ex_W) (Some ex_b);
   Linear_forward (BK := textbook) f [ex_X])
  = Ok [array2 float32 [[3; 7]; [3; 7]; [3; 7]; [3; 7]]%Z].
Proof. vm_compute. reflexivity. Qed.

Lemma Linear_forward_example_not_3_4 :
  (f ← Linear_init no_random 3 2 (of_Z float64 1) (of_Z float64 0) false
         (Some ex_W) (Some ex_b);
   Linear_forward (BK := textbook) f [ex_X])
  <> Ok [array2 float32 [[3; 4]; [3; 4]; [3; 4]; [3; 4]]%Z].
Proof. vm_compute. intros H. discriminate H. Qed.

(* ===================================================================== *)
(** * Construction                                                        *)
(* ===================================================================== *)

(** C4.  [Linear(3, 2, nobias=True, initialW=W, initial_bias=b)]: the
    explicit initial bias is adopted although [nobias] is set, and the layer
    holds a bias and its accumulator. *)
Theorem Linear_init_nobias_initial_bias rn :
  exists f,
    Linear_init rn 3 2 (of_Z float64 1) (of_Z float64 0) true
      (Some ex_W) (Some ex_b) = Ok f /\
    params f !! "b" = Some ex_b /\
    is_Some (grads f !! "b").
Proof.
  eexists. split; [reflexivity|]. split; [reflexivity|].
  eexists. reflexivity.
Qed.

(** Without an explicit initial bias, [nobias] does leave the layer without
    a bias and without an accumulator for it. *)
Lemma Linear_init_nobias rn in_size out_size wscale bias initialW f :
  Linear_init rn in_size out_size wscale bias true initialW None = Ok f ->
  params f !! "b" = None /\ grads f !! "b" = None.
Proof.
  unfold Linear_init. intros H.
  destruct initialW as [W|]; simpl in H.
  - destruct (py_assert _); simpl in H; [|discriminate].
    injection H as <-. simpl. rewrite lookup_fmap.
    rewrite lookup_insert_ne by discriminate. split; reflexivity.
  - destruct (init_scale _ _); simpl in H; [|discriminate].
    destruct (rn _ _ _); simpl in H; [|discriminate].
    injection H as <-. simpl. rewrite lookup_fmap.
    rewrite lookup_insert_ne by discriminate. split; reflexivity.
Qed.

(* ===================================================================== *)
(** * The backward pass                                                   *)
(* ===================================================================== *)




(** ** Accumulation *)

Lemma f_add_zero_twice dt g :
  f_add dt (f_add dt fzero g) g = f_add dt (f_add dt fzero g) (f_add dt fzero g).
Proof. destruct g as [[|]| | |]; reflexivity. Qed.

Lemma getitem_zeros n k : getitem (repeat fzero n) k = fzero.
Proof. unfold getitem. apply List.nth_repeat. Qed.

Lemma map_matrix (h : scalar -> scalar) r c f :
  map h (matrix r c f) = matrix r c (fun i j => h (f i j)).
Proof.
  rewrite !matrix_tabulate. unfold tabulate. rewrite List.map_map. reflexivity.
Qed.

Lemma accumulate2_twice Z r c g :
  accumulate2 (accumulate2 (zeros_like Z) r c g) r c g
  = twice (accumulate2 (zeros_like Z) r c g).
Proof.
  unfold accumulate2, twice. simpl. f_equal. rewrite map_matrix.
  apply matrix_ext. intros i j Hi Hj. rewrite entry_matrix by assumption.
  unfold entry. rewrite getitem_zeros. apply f_add_zero_twice.
Qed.

Lemma accumulate1_twice Z n g :
  accumulate1 (accumulate1 (zeros_like Z) n g) n g
  = twice (accumulate1 (zeros_like Z) n g).
Proof.
  unfold accumulate1, twice. simpl. f_equal. unfold tabulate at 3.
  rewrite List.map_map. apply tabulate_ext. intros j Hj.
  rewrite getitem_tabulate by assumption.
  rewrite getitem_zeros. apply f_add_zero_twice.
Qed.

Lemma valid_bias_zeros b out_size :
  valid_bias b out_size -> valid_bias (zeros_like <$> b) out_size.
Proof. destruct b as [b|]; simpl; [|trivial]. intros H. exact H. Qed.

Lemma valid_weight_zeros W out_size in_size :
  valid_weight W out_size in_size -> valid_weight (zeros_like W) out_size in_size.
Proof. intros H. exact H. Qed.

(** C6.  After the accumulators have been zeroed once, two [backward] calls
    with the same valid [x] and [gy] leave in the accumulator of [W] (and in
    that of [b], when the layer has a bias) exactly twice what a single call
    leaves there. *)
Theorem Linear_backward_twice {BK : Backend}
    self x gy W b batch in_size out_size :
  valid_input x batch in_size ->
  valid_gy gy batch out_size ->
  has_params self W b ->
  valid_weight W out_size in_size ->
  valid_bias b out_size ->
  exists f1 f2 gx1 gx2 gW1,
    Linear_backward (zerograds self) [x] [gy] = Ok (f1, gx1) /\
    Linear_backward f1 [x] [gy] = Ok (f2, gx2) /\
    grads f1 !! "W" = Some gW1 /\
    grads f2 !! "W" = Some (twice gW1) /\
    grads f2 !! "b" = twice <$> grads f1 !! "b" /\
    (is_Some (grads f1 !! "b") <-> is_Some b).
Proof.
  intros Hx Hgy [HW Hb] HvW Hvb.
  pose proof (Linear_backward_valid (zerograds self) x gy W (zeros_like W)
                (zeros_like <$> b) batch in_size out_size Hx Hgy HW HvW) as H1.
  simpl in H1. rewrite !lookup_fmap, HW, Hb in H1.
  specialize (H1 eq_refl (valid_weight_zeros _ _ _ HvW) eq_refl
                (valid_bias_zeros _ _ Hvb)).
  set (g1 := grads_after (zeros_like <$> params self) (zeros_like W)
               (zeros_like <$> b) x gy batch in_size out_size) in *.
  set (gW1 := accumulate2 (zeros_like W) out_size in_size
                (grad_W gy x batch in_size)).
  set (gb1 := (fun b0 => accumulate1 (zeros_like b0) out_size
                           (grad_b gy)) <$> b).
  assert (Hg1W : g1 !! "W" = Some gW1).
  { unfold g1, grads_after. destruct b; simpl.
    - rewrite lookup_insert_ne by discriminate. apply lookup_insert_eq.
    - apply lookup_insert_eq. }
  assert (Hg1b : g1 !! "b" = gb1).
  { unfold g1, gb1, grads_after. destruct b; simpl.
    - apply lookup_insert_eq.
    - rewrite lookup_insert_ne by discriminate.
      rewrite lookup_fmap, Hb. reflexivity. }
  assert (Hvgb1 : valid_bias gb1 out_size).
  { unfold gb1. destruct b; simpl; [split; reflexivity | trivial]. }
  pose proof (Linear_backward_valid (mk_Linear (params self) g1) x gy W gW1 gb1
                batch in_size out_size Hx Hgy HW HvW Hg1W
                (conj eq_refl eq_refl) Hg1b Hvgb1) as H2.
  eexists _, _, _, _, gW1.
  split; [exact H1|]. split; [exact H2|]. simpl.
  split; [exact Hg1W|]. rewrite Hg1b.
  unfold grads_after, gb1, gW1. destruct b as [b0|]; simpl.
  - rewrite lookup_insert_ne by discriminate. rewrite !lookup_insert_eq.
    rewrite accumulate2_twice, accumulate1_twice.
    repeat split; intros _; eexists; reflexivity.
  - rewrite lookup_insert_eq, lookup_insert_ne by discriminate.
    rewrite accumulate2_twice. fold gW1 in Hg1W. rewrite Hg1b.
    repeat split; intros [? H]; discriminate H.
Qed.

Lemma Linear_backward_twice_witness :
  exists f1 f2 gx1 gx2,
    Linear_backward (BK := textbook) (zerograds ex_layer) [ex_X] [ex_gy]
    = Ok (f1, gx1) /\
    Linear_backward (BK := textbook) f1 [ex_X] [ex_gy] = Ok (f2, gx2) /\
    grads f1 !! "W" = Some (array2 float32 [[16; 16; 16]; [20; 20; 20]]%Z) /\
    grads f2 !! "W" = Some (array2 float32 [[32; 32; 32]; [40; 40; 40]]%Z) /\
    grads f1 !! "b" = Some (array1 float32 [16; 20]%Z) /\
    grads f2 !! "b" = Some (array1 float32 [32; 40]%Z).
Proof.
  destruct (Linear_backward_twice (BK := textbook) ex_layer ex_X ex_gy ex_W
              (Some ex_b) 4 3 2)
    as (f1 & f2 & gx1 & gx2 & gW1 & H1 & H2 & HW1 & HW2 & Hb2 & _);
    try solve [valid_args].
  exists f1, f2, gx1, gx2.
  assert (E1 : Linear_backward (BK := textbook) (zerograds ex_layer) [ex_X]
                 [ex_gy] = Ok (f1, gx1)) by exact H1.
  vm_compute in E1. injection E1 as <- <-.
  split; [exact H1|]. split; [exact H2|].
  assert (EW : gW1 = array2 float32 [[16; 16; 16]; [20; 20; 20]]%Z).
  { vm_compute in HW1. injection HW1 as <-. vm_compute. reflexivity. }
  subst gW1.
  split; [vm_compute; reflexivity|].
  split; [rewrite HW2; vm_compute; reflexivity|].
  split; [vm_compute; reflexivity|].
  rewrite Hb2. vm_compute. reflexivity.
Defined.


(* ===================================================================== *)
(** * Flattening                                                          *)
(* ===================================================================== *)




(* ===================================================================== *)
(** * Validation                                                          *)
(* ===================================================================== *)

(** C8.  An input whose dtype is not float32, or that has fewer than two
    axes, or whose axes after the first do not multiply to [in_size] (the
    second dimension of [W]) is rejected by the type check with a type
    error, and the call ends there whatever [forward] is: it is not run. *)
Theorem Linear_check_type_forward_rejects {BK : Backend}
    self W x out_size in_size :
  params self !! "W" = Some W -> shape W = [out_size; in_size] ->
  dtype_of x <> float32 \/ ndim x < 2 \/ prod (drop 1 (shape x)) <> in_size ->
  Linear_check_type_forward self (get_types [x]) = Raise InvalidType /\
  (forall (S : Type) (forward : list ndarray -> result (S * list ndarray)),
     Function_call (Linear_check_type_forward self) forward [x]
     = Raise InvalidType) /\
  Linear_call self [x] = Raise InvalidType.
Proof.
  intros HW Hs Hbad.
  assert (Hc : Linear_check_type_forward self (get_types [x]) = Raise InvalidType).
  { unfold Linear_check_type_forward, py_getitem. simpl. rewrite HW. simpl.
    rewrite Hs. simpl. unfold ti_ndim. simpl.
    destruct (bool_decide_reflect (dtype_of x = float32)) as [Hd|Hd];
      [|reflexivity].
    unfold ndim in Hbad.
    destruct (length (shape x)) as [|[|n]] eqn:Hn; try reflexivity.
    destruct (Nat.eqb_spec (prod (drop 1 (shape x))) in_size) as [Hp|Hp];
      [|reflexivity].
    destruct Hbad as [?|[?|?]]; [contradiction|lia|contradiction]. }
  split; [exact Hc|]. split.
  - intros S forward. unfold Function_call. rewrite Hc. reflexivity.
  - unfold Linear_call, Function_call. rewrite Hc. reflexivity.
Qed.

(** The check lets through exactly the inputs that are float32, have at
    least two axes and [in_size] elements per sample. *)
Lemma Linear_check_type_forward_accepts {BK : Backend}
    self W x out_size in_size :
  params self !! "W" = Some W -> shape W = [out_size; in_size] ->
  dtype_of x = float32 -> 2 <= ndim x -> prod (drop 1 (shape x)) = in_size ->
  Linear_check_type_forward self (get_types [x]) = Ok tt /\
  Linear_call self [x] = (y ← Linear_forward self [x]; Ok (self, y)).
Proof.
  intros HW Hs Hd Hn Hp.
  assert (Hc : Linear_check_type_forward self (get_types [x]) = Ok tt).
  { unfold Linear_check_type_forward, py_getitem. simpl. rewrite HW. simpl.
    rewrite Hs. simpl. unfold ti_ndim. simpl. unfold ndim in Hn.
    rewrite (bool_decide_eq_true_2 _ Hd), Hp, Nat.eqb_refl.
    destruct (length (shape x)) as [|[|n]]; [lia|lia|reflexivity]. }
  split; [exact Hc|].
  unfold Linear_call, Function_call. rewrite Hc. reflexivity.
Qed.

Lemma Linear_check_type_forward_rejects_witness :
  Linear_check_type_forward ex_layer
    (get_types [array2 float64 [[1; 1; 1]]%Z]) = Raise InvalidType /\
  Linear_call (BK := textbook) ex_layer [array2 float64 [[1; 1; 1]]%Z]
  = Raise InvalidType.
Proof.
  destruct (Linear_check_type_forward_rejects (BK := textbook) ex_layer ex_W
              (array2 float64 [[1; 1; 1]]%Z) 2 3) as (Hc & _ & Hcall).
  - reflexivity.
  - reflexivity.
  - left. discriminate.
  - split; assumption.
Defined.

(* ===================================================================== *)
(** * The nonparameterized operator                                       *)
(* ===================================================================== *)

Lemma has_params_layer_of W b : has_params (layer_of W b) W b.
Proof.
  unfold has_params, layer_of. destruct b; simpl.
  - rewrite lookup_insert_ne by discriminate. rewrite !lookup_insert_eq. auto.
  - rewrite lookup_insert_eq, lookup_insert_ne by discriminate. auto.
Qed.

Lemma Linear_init_explicit rn in_size out_size wscale bias W b :
  shape W = [out_size; in_size] ->
  valid_bias b out_size ->
  Linear_init rn in_size out_size wscale bias
    (match b with None => true | Some _ => false end) (Some W) b
  = Ok (layer_of W b).
Proof.
  intros HW Hb. unfold Linear_init, layer_of. simpl.
  rewrite (bool_decide_eq_true_2 _ HW). simpl.
  destruct b as [b|]; simpl.
  - destruct Hb as [_ Hb]. rewrite (bool_decide_eq_true_2 _ Hb). reflexivity.
  - reflexivity.
Qed.

Lemma Linear_init_with_bias rn in_size out_size wscale bias nobias W b :
  shape W = [out_size; in_size] ->
  shape b = [out_size] ->
  Linear_init rn in_size out_size wscale bias nobias (Some W) (Some b)
  = Ok (layer_of W (Some b)).
Proof.
  intros HW Hb. unfold Linear_init, layer_of. simpl.
  rewrite (bool_decide_eq_true_2 _ HW). simpl.
  rewrite (bool_decide_eq_true_2 _ Hb). reflexivity.
Qed.

(** A [backward] on zeroed accumulators. *)
Lemma Linear_backward_zeroed {BK : Backend}
    self x gy W b batch in_size out_size :
  valid_input x batch in_size ->
  valid_gy gy batch out_size ->
  has_params self W b ->
  valid_weight W out_size in_size ->
  valid_bias b out_size ->
  exists g,
    Linear_backward (zerograds self) [x] [gy]
    = Ok (mk_Linear (params self) g, [input_grad x gy W]) /\
    g !! "W" = Some (single_grad_W x gy W batch in_size out_size) /\
    g !! "b" = (fun b0 => single_grad_b gy b0 out_size) <$> b.
Proof.
  intros Hx Hgy [HW Hb] HvW Hvb.
  pose proof (Linear_backward_valid (zerograds self) x gy W (zeros_like W)
                (zeros_like <$> b) batch in_size out_size Hx Hgy HW HvW) as H1.
  simpl in H1. rewrite !lookup_fmap, HW, Hb in H1.
  specialize (H1 eq_refl (valid_weight_zeros _ _ _ HvW) eq_refl
                (valid_bias_zeros _ _ Hvb)).
  eexists. split; [exact H1|].
  unfold grads_after, single_grad_W, single_grad_b. destruct b; simpl.
  - rewrite lookup_insert_ne by discriminate. rewrite !lookup_insert_eq. auto.
  - rewrite lookup_insert_eq, lookup_insert_ne by discriminate.
    rewrite lookup_fmap, Hb. auto.
Qed.

Lemma NonparameterizedLinear_check_valid x W b batch in_size out_size :
  valid_input x batch in_size ->
  valid_weight W out_size in_size ->
  valid_bias b out_size ->
  NonparameterizedLinear_check_type_forward
    (get_types (x :: W :: option_list b)) = Ok tt.
Proof.
  intros (Hd & Hn & Hp & _ & _) [HWd HWs] Hb.
  unfold NonparameterizedLinear_check_type_forward, ndim, ti_ndim in *.
  destruct b as [b|]; simpl in *.
  - destruct Hb as [_ Hbs]. rewrite Hd, HWd, HWs, Hbs. simpl.
    rewrite Hp, !Nat.eqb_refl.
    destruct (length (shape x)) as [|[|n]]; [lia|lia|]. reflexivity.
  - rewrite Hd, HWd, HWs. simpl. rewrite Hp, !Nat.eqb_refl.
    destruct (length (shape x)) as [|[|n]]; [lia|lia|]. reflexivity.
Qed.

Lemma NonparameterizedLinear_forward_valid {BK : Backend}
    rn self x W b batch in_size out_size :
  valid_input x batch in_size ->
  valid_weight W out_size in_size ->
  valid_bias b out_size ->
  NonparameterizedLinear_forward rn self (x :: W :: option_list b)
  = Ok (mk_NonparameterizedLinear (Some (layer_of W b)),
        [mk_ndarray float32 [batch; out_size]
           (affine x W b batch in_size out_size)]).
Proof.
  intros Hx HW Hb. unfold NonparameterizedLinear_forward. simpl.
  destruct HW as [HWd HWs]. rewrite HWs. simpl.
  pose proof (Linear_forward_valid (layer_of W b) x W b batch in_size out_size
                Hx (has_params_layer_of W b) (conj HWd HWs) Hb) as Hf.
  destruct b as [b|]; simpl.
  - destruct Hb as [Hbd Hbs].
    rewrite (Linear_init_with_bias rn _ _ _ _ _ _ _ HWs Hbs). simpl.
    rewrite Hf. reflexivity.
  - rewrite (Linear_init_explicit rn in_size out_size _ _ W None HWs I). simpl.
    rewrite Hf. reflexivity.
Qed.

(** [backward] on an instance whose [func] adopted [W] and [b], whatever
    its accumulators hold. *)
Lemma NonparameterizedLinear_backward_valid {BK : Backend}
    self f x gy W b batch in_size out_size :
  func self = Some f ->
  has_params f W b ->
  valid_input x batch in_size ->
  valid_gy gy batch out_size ->
  valid_weight W out_size in_size ->
  valid_bias b out_size ->
  exists self',
    NonparameterizedLinear_backward self (x :: W :: option_list b) [gy]
    = Ok (self',
          input_grad x gy W
          :: single_grad_W x gy W batch in_size out_size
          :: option_list ((fun b0 => single_grad_b gy b0 out_size) <$> b)).
Proof.
  intros Hf Hp Hx Hgy HW Hb. unfold NonparameterizedLinear_backward.
  rewrite Hf. simpl.
  destruct (Linear_backward_zeroed f x gy W b batch in_size out_size
              Hx Hgy Hp HW Hb) as (g & Hbk & HgW & Hgb).
  rewrite Hbk. simpl. unfold py_getitem. rewrite Hgb, HgW.
  destruct b; simpl; eexists; reflexivity.
Qed.

(** C5.  For valid [x], [W], optional [b] and [gy], the one-shot call
    [linear(x, W, b)] returns what [forward] returns on a parameterized
    operator constructed with initial weight [W] and initial bias [b], and
    the [backward] of its instance returns the same gradients for [x], [W]
    and [b] as that operator's [backward] with the same [x] and [gy], its
    accumulators zeroed before that single call. *)
Theorem linear_matches_Linear {BK : Backend}
    rn x W b gy batch in_size out_size :
  valid_input x batch in_size ->
  valid_weight W out_size in_size ->
  valid_bias b out_size ->
  valid_gy gy batch out_size ->
  exists nl nl' y g,
    linear rn x W b = Ok (nl, y) /\
    reference_forward rn x W b in_size out_size = Ok y /\
    NonparameterizedLinear_backward nl (x :: W :: option_list b) [gy]
    = Ok (nl', g) /\
    reference_backward rn x W b gy in_size out_size = Ok g /\
    length g = 2 + length (option_list b).
Proof.
  intros Hx HW Hb Hgy.
  pose proof (NonparameterizedLinear_check_valid x W b batch in_size out_size
                Hx HW Hb) as Hc.
  pose proof (NonparameterizedLinear_forward_valid rn NonparameterizedLinear_new
                x W b batch in_size out_size Hx HW Hb) as Hf.
  destruct (NonparameterizedLinear_backward_valid
              (mk_NonparameterizedLinear (Some (layer_of W b))) (layer_of W b)
              x gy W b batch in_size out_size eq_refl (has_params_layer_of W b)
              Hx Hgy HW Hb) as (nl' & Hbk).
  destruct (Linear_backward_zeroed (layer_of W b) x gy W b batch in_size out_size
              Hx Hgy (has_params_layer_of W b) HW Hb) as (g & Hz & HgW & Hgb).
  exists (mk_NonparameterizedLinear (Some (layer_of W b))), nl',
    [mk_ndarray float32 [batch; out_size]
       (affine x W b batch in_size out_size)],
    (input_grad x gy W
     :: single_grad_W x gy W batch in_size out_size
     :: option_list ((fun b0 => single_grad_b gy b0 out_size) <$> b)).
  split.
  { unfold linear, NonparameterizedLinear_call, Function_call.
    destruct b; simpl in Hc, Hf |- *; rewrite Hc; simpl; exact Hf. }
  split.
  { unfold reference_forward, reference_operator.
    rewrite (Linear_init_explicit rn in_size out_size _ _ W b (proj2 HW) Hb).
    simpl.
    apply (Linear_forward_valid (layer_of W b) x W b batch in_size out_size
             Hx (has_params_layer_of W b) HW Hb). }
  split; [exact Hbk|]. split.
  { unfold reference_backward, reference_operator.
    rewrite (Linear_init_explicit rn in_size out_size _ _ W b (proj2 HW) Hb).
    simpl. rewrite Hz. simpl. unfold py_getitem. rewrite HgW, Hgb. reflexivity. }
  destruct b; reflexivity.
Qed.

Lemma linear_matches_Linear_witness :
  exists nl nl' y g,
    linear (BK := textbook) no_random ex_X ex_W (Some ex_b) = Ok (nl, y) /\
    reference_forward (BK := textbook) no_random ex_X ex_W (Some ex_b) 3 2
    = Ok y /\
    NonparameterizedLinear_backward (BK := textbook) nl [ex_X; ex_W; ex_b]
      [ex_gy] = Ok (nl', g) /\
    reference_backward (BK := textbook) no_random ex_X ex_W (Some ex_b) ex_gy
      3 2 = Ok g /\
    length g = 3.
Proof.
  apply (linear_matches_Linear (BK := textbook) no_random ex_X ex_W (Some ex_b) ex_gy 4 3 2);
    valid_args.
Defined.

(** C9.  A [backward] that follows a [forward] on the same instance returns
    as many gradients as [forward] had inputs: the input gradient and the
    gradient of [W] for two inputs, those and the gradient of [b] for three.
    The gradients of [W] and [b] are what this single call adds to zero,
    [0 + gy^T . X] and [0 + gy.sum(0)] entry by entry with the product and
    the column sum of the backend, whatever the accumulators of the internal
    operator held before. *)
Theorem NonparameterizedLinear_backward_after_forward {BK : Backend}
    rn self x W b gy batch in_size out_size :
  valid_input x batch in_size ->
  valid_weight W out_size in_size ->
  valid_bias b out_size ->
  valid_gy gy batch out_size ->
  exists nl f y,
    NonparameterizedLinear_forward rn self (x :: W :: option_list b)
    = Ok (nl, y) /\
    func nl = Some f /\
    forall leftover, exists nl',
      NonparameterizedLinear_backward
        (mk_NonparameterizedLinear (Some (mk_Linear (params f) leftover)))
        (x :: W :: option_list b) [gy]
      = Ok (nl',
            match b with
            | None =>
                [ input_grad x gy W;
                  single_grad_W x gy W batch in_size out_size ]
            | Some b =>
                [ input_grad x gy W;
                  single_grad_W x gy W batch in_size out_size;
                  single_grad_b gy b out_size ]
            end).
Proof.
  intros Hx HW Hb Hgy.
  eexists _, (layer_of W b), _.
  split.
  { apply (NonparameterizedLinear_forward_valid rn self x W b batch in_size
             out_size Hx HW Hb). }
  split; [reflexivity|].
  intros leftover.
  destruct (NonparameterizedLinear_backward_valid
              (mk_NonparameterizedLinear
                 (Some (mk_Linear (params (layer_of W b)) leftover)))
              (mk_Linear (params (layer_of W b)) leftover)
              x gy W b batch in_size out_size eq_refl (has_params_layer_of W b)
              Hx Hgy HW Hb) as (nl' & Hbk).
  exists nl'. rewrite Hbk. destruct b; reflexivity.
Qed.

Lemma NonparameterizedLinear_backward_after_forward_witness :
  exists nl nl' y,
    NonparameterizedLinear_forward (BK := textbook) no_random
      NonparameterizedLinear_new [ex_X; ex_W; ex_b] = Ok (nl, y) /\
    NonparameterizedLinear_backward (BK := textbook) nl [ex_X; ex_W; ex_b]
      [ex_gy]
    = Ok (nl',
          [ array2 float32 [[5; 5; 5]; [11; 11; 11]; [17; 17; 17]; [23; 23; 23]]%Z;
            array2 float32 [[16; 16; 16]; [20; 20; 20]]%Z;
            array1 float32 [16; 20]%Z ]).
Proof.
  destruct (NonparameterizedLinear_backward_after_forward (BK := textbook)
              no_random
              NonparameterizedLinear_new ex_X ex_W (Some ex_b) ex_gy 4 3 2)
    as (nl & f & y & Hf & Hfunc & Hbk); try solve [valid_args].
  destruct (Hbk (grads f)) as (nl' & Hbk').
  exists nl, nl', y. split; [exact Hf|].
  destruct nl as [fn]. simpl in Hfunc. subst fn.
  destruct f as [p g]. simpl in Hbk'. rewrite Hbk'.
  vm_compute. reflexivity.
Defined.

(** The dtypes of [x] and [W] are checked. *)
Lemma NonparameterizedLinear_check_dtypes tx tw rest :
  ti_dtype tx <> float32 \/ ti_dtype tw <> float32 ->
  NonparameterizedLinear_check_type_forward (tx :: tw :: rest)
  = Raise InvalidType.
Proof.
  intros Hbad. unfold NonparameterizedLinear_check_type_forward.
  cbn [length]. destruct (S (S (length rest)) <=? 3); simpl; [|reflexivity].
  destruct (bool_decide_reflect (ti_dtype tx = float32)) as [Hx|Hx];
    [|reflexivity].
  destruct (bool_decide_reflect (ti_dtype tw = float32)) as [Hw|Hw];
    [|reflexivity].
  destruct Hbad; contradiction.
Qed.

(** A checked call of [linear] on a batch that is not empty returns one
    float32 array of shape [(batch, out_size)]. *)
Lemma linear_checked_shape {BK : Backend} rn x W b batch :
  NonparameterizedLinear_check_type_forward (get_types (x :: W :: option_list b))
  = Ok tt ->
  head (shape x) = Some batch -> 1 <= batch ->
  exists nl y out_size,
    linear rn x W b = Ok (nl, [y]) /\
    head (shape W) = Some out_size /\
    shape y = [batch; out_size] /\ dtype_of y = float32.
Proof.
  intros Hc Hhead Hbatch.
  destruct (NonparameterizedLinear_check_sound _ Hc)
    as (tx & tw & o & Hdx & Hdw & Hn & Hsw & Hin).
  assert (Htypes : tx = mk_TypeInfo (shape x) (dtype_of x) /\
                   tw = mk_TypeInfo (shape W) (dtype_of W) /\
                   forall b0, b = Some b0 -> shape b0 = [o]).
  { destruct b as [b0|]; simpl in Hin.
    - destruct Hin as [[=]|(tb & [= <- <- <-] & Hsb)].
      repeat split. intros ? [= <-]. exact Hsb.
    - destruct Hin as [[= <- <-]|(tb & [=] & _)].
      repeat split. intros ? [=]. }
  destruct Htypes as (-> & -> & Hsb).
  unfold ti_ndim in Hn. simpl in Hdx, Hdw, Hn, Hsw.
  destruct (shape x) as [|n rest] eqn:Hs; [discriminate Hhead|].
  injection Hhead as ->. cbn [drop] in Hsw. rewrite ?drop_0 in Hsw.
  assert (Hrest : rest <> []) by (intros ->; simpl in Hn; lia).
  destruct (Linear_forward_shape (layer_of W b) W x batch rest o)
    as (d & Hf); try assumption.
  { apply has_params_layer_of. }
  { intros b0 Hb0. apply Hsb.
    destruct (has_params_layer_of W b) as [_ Hpb]. congruence. }
  rewrite Hdx, Hdw in Hf. simpl in Hf.
  exists (mk_NonparameterizedLinear (Some (layer_of W b))).
  exists (mk_ndarray float32 [batch; o] d), o.
  split; [|rewrite Hsw; repeat split; reflexivity].
  unfold linear, NonparameterizedLinear_call, Function_call.
  destruct b as [b0|]; cbv [option_list option_rect] in Hc; rewrite Hc;
    cbn [mbind result_bind];
    unfold NonparameterizedLinear_forward;
    cbn [py_index nth_error mbind result_bind length Nat.eqb take];
    rewrite Hsw; cbn [mbind result_bind].
  - rewrite (Linear_init_with_bias rn _ _ _ _ _ W b0 Hsw (Hsb b0 eq_refl)).
    cbn [mbind result_bind]. rewrite Hf. reflexivity.
  - rewrite (Linear_init_explicit rn (prod rest) o _ _ W None Hsw I).
    cbn [mbind result_bind]. rewrite Hf. reflexivity.
Qed.

(** C10.  The type check of the nonparameterized operator does not look at
    the dtype of the bias input, while it does check the dtypes of [x] and
    [W]: its verdict is the same for every dtype of [b], it rejects every
    call whose [x] or [W] is not float32, and there is a call with three
    inputs, [b] of one axis, of the length of the first axis of [W] and of
    dtype float64, that passes the check and whose [forward] runs and
    returns. *)
Theorem NonparameterizedLinear_check_ignores_bias_dtype {BK : Backend} rn :
  (forall tx tw sb d d',
     NonparameterizedLinear_check_type_forward [tx; tw; mk_TypeInfo sb d]
     = NonparameterizedLinear_check_type_forward [tx; tw; mk_TypeInfo sb d']) /\
  (forall tx tw rest,
     ti_dtype tx <> float32 \/ ti_dtype tw <> float32 ->
     NonparameterizedLinear_check_type_forward (tx :: tw :: rest)
     = Raise InvalidType) /\
  exists x W b nl y,
    dtype_of x = float32 /\ dtype_of W = float32 /\
    dtype_of b = float64 /\ ndim b = 1 /\ head (shape b) = head (shape W) /\
    NonparameterizedLinear_check_type_forward (get_types [x; W; b]) = Ok tt /\
    linear rn x W (Some b) = Ok (nl, [y]).
Proof.
  split; [|split].
  - intros tx tw sb d d'. reflexivity.
  - apply NonparameterizedLinear_check_dtypes.
  - destruct (linear_checked_shape rn ex_X ex_W
                (Some (array1 float64 [0; 1]%Z)) 4)
      as (nl & y & o & Hl & _); [reflexivity|reflexivity|lia|].
    exists ex_X, ex_W, (array1 float64 [0; 1]%Z), nl, y.
    do 6 (split; [reflexivity|]). exact Hl.
Qed.

(* ===================================================================== *)
(** * Further properties of the module                                    *)
(* ===================================================================== *)

(** ** [_as_mat] *)

(** X1.  When [_as_mat] returns, the result is a matrix that holds the
    elements of its argument, in the same row-major order, and has its
    dtype; it has the same number of rows (the length of the first axis) and
    the same number of elements. *)
Theorem _as_mat_keeps_elements x m :
  _as_mat x = Ok m ->
  ndim m = 2 /\ data m = data x /\ dtype_of m = dtype_of x /\
  head (shape m) = head (shape x) /\ prod (shape m) = prod (shape x).
Proof.
  intros H. destruct (_as_mat_cases x) as (H0 & H2 & HV & HN).
  unfold ndim. destruct (shape x) as [|n rest] eqn:Hs.
  - rewrite H0 in H by reflexivity. discriminate H.
  - destruct (Nat.eq_dec (length rest) 1) as [Hl|Hl].
    + destruct rest as [|k [|? ?]]; try discriminate Hl.
      rewrite (H2 n k eq_refl) in H. injection H as <-.
      rewrite Hs. repeat split; reflexivity.
    + destruct n as [|n].
      * rewrite (HV rest Hl eq_refl) in H. discriminate H.
      * rewrite (HN (S n) rest Hl ltac:(lia) eq_refl) in H.
        injection H as <-. cbn -[Nat.mul prod]. repeat split; try reflexivity.
        change (prod (S n :: rest)) with (S n * prod rest).
        change (prod [S n; prod rest]) with (S n * (prod rest * 1)). lia.
Qed.

Lemma _as_mat_keeps_elements_witness :
  exists m,
    _as_mat ex_X3 = Ok m /\ ndim m = 2 /\ data m = data ex_X3 /\
    prod (shape m) = 6.
Proof.
  exists (mk_ndarray float32 [2; 3] (data ex_X3)).
  destruct (_as_mat_keeps_elements ex_X3 (mk_ndarray float32 [2; 3] (data ex_X3)))
    as (H1 & H2 & _ & _ & H3); [reflexivity|].
  repeat split; assumption.
Defined.

(** X2.  [_as_mat] fails in two cases only: with a type error on a 0-d
    array, which has no length, and with a value error on an array of one
    axis or of three and more whose first axis is empty, for which the
    second dimension cannot be inferred. *)
Theorem _as_mat_raises_iff x :
  (_as_mat x = Raise TypeError <-> ndim x = 0) /\
  (_as_mat x = Raise ValueError <-> ndim x <> 2 /\ head (shape x) = Some 0) /\
  (forall e, _as_mat x = Raise e -> e = TypeError \/ e = ValueError).
Proof.
  destruct (_as_mat_cases x) as (H0 & H2 & HV & HN). unfold ndim.
  assert (Hfin : forall r : result ndarray,
            (exists v, r = Ok v) \/ r = Raise TypeError \/ r = Raise ValueError ->
            forall e, r = Raise e -> e = TypeError \/ e = ValueError).
  { intros r [[v ->]|[->| ->]] e [=]; subst; auto. }
  destruct (shape x) as [|n rest] eqn:Hs.
  - rewrite H0 by reflexivity. simpl.
    split; [tauto|]. split; [|apply Hfin; auto].
    split; [discriminate|]. intros [_ [=]].
  - destruct (Nat.eq_dec (length rest) 1) as [Hl|Hl].
    + destruct rest as [|k [|? ?]]; try discriminate Hl.
      rewrite (H2 n k eq_refl). simpl.
      split; [split; [discriminate|lia]|].
      split; [|apply Hfin; eauto].
      split; [discriminate|]. intros [H _]. lia.
    + destruct n as [|n].
      * rewrite (HV rest Hl eq_refl). simpl.
        split; [split; [discriminate|lia]|].
        split; [|apply Hfin; auto].
        split; [|reflexivity]. intros _. split; [lia|reflexivity].
      * rewrite (HN (S n) rest Hl ltac:(lia) eq_refl). simpl.
        split; [split; [discriminate|lia]|].
        split; [|apply Hfin; eauto].
        split; [discriminate|]. intros [_ [=]].
Qed.

(** ** [Linear.__init__] *)

(** What a constructed layer holds. *)
Lemma Linear_init_post
    rn in_size out_size wscale bias nobias initialW initial_bias f :
  Linear_init rn in_size out_size wscale bias nobias initialW initial_bias
  = Ok f ->
  (exists W, params f !! "W" = Some W /\ shape W = [out_size; in_size] /\
     match initialW with
     | Some w => W = w
     | None => dtype_of W = float32
     end) /\
  (forall b, params f !! "b" = Some b -> shape b = [out_size]) /\
  params f !! "b"
  = match initial_bias with
    | Some b => Some b
    | None => if nobias then None else Some (repeat_float32 bias out_size)
    end /\
  (forall k, k <> "W" -> k <> "b" -> params f !! k = None).
Proof.
  unfold Linear_init. intros H.
  assert (HW : exists W,
            shape W = [out_size; in_size] /\
            match initialW with
            | Some w => W = w
            | None => dtype_of W = float32
            end /\
            (params ← match initial_bias with
                      | Some initial_bias =>
                          _ ← py_assert
                                (bool_decide (shape initial_bias = [out_size]));
                          Ok (<["b" := initial_bias]>
                                (<["W" := W]> (∅ : gmap string ndarray)))
                      | None =>
                          if negb nobias
                          then Ok (<["b" := repeat_float32 bias out_size]>
                                     (<["W" := W]> (∅ : gmap string ndarray)))
                          else Ok (<["W" := W]> (∅ : gmap string ndarray))
                      end;
             Ok (mk_Linear params (zeros_like <$> params))) = Ok f).
  { destruct initialW as [w|]; simpl in H.
    - destruct (bool_decide_reflect (shape w = [out_size; in_size])) as [Hs|Hs];
        simpl in H; [|discriminate H].
      exists w. auto.
    - destruct (init_scale wscale in_size) as [sc|e]; simpl in H;
        [|discriminate H].
      destruct (rn fzero sc [out_size; in_size]) as [draws|e]; simpl in H;
        [|discriminate H].
      eexists. split; [|split; [|exact H]]; reflexivity. }
  clear H. destruct HW as (W & HsW & HiW & H).
  destruct initial_bias as [b|]; simpl in H.
  - destruct (bool_decide_reflect (shape b = [out_size])) as [Hs|Hs];
      simpl in H; [|discriminate H].
    injection H as <-. simpl.
    rewrite lookup_insert_eq, lookup_insert_ne, lookup_insert_eq by discriminate.
    repeat split; eauto.
    + intros b' [= <-]. exact Hs.
    + intros k HkW Hkb. rewrite !lookup_insert_ne by congruence.
      apply lookup_empty.
  - destruct nobias; simpl in H; injection H as <-; simpl.
    + rewrite lookup_insert_eq, lookup_insert_ne, lookup_empty by discriminate.
      repeat split; eauto; try discriminate.
      intros k HkW Hkb. rewrite !lookup_insert_ne by congruence.
      apply lookup_empty.
    + rewrite lookup_insert_eq, lookup_insert_ne, lookup_insert_eq by discriminate.
      repeat split; eauto.
      * intros b' [= <-]. reflexivity.
      * intros k HkW Hkb. rewrite !lookup_insert_ne by congruence.
        apply lookup_empty.
Qed.

(** X3.  A constructed layer holds a weight of shape [(out_size, in_size)]:
    the explicit initial weight itself when one is given, a float32 array
    otherwise.  Its bias, if it has one, has shape [(out_size,)]: it is the
    explicit initial bias itself when one is given, and otherwise
    [out_size] copies of [float32(bias)] unless [nobias] is set.  It holds
    no other parameter. *)
Theorem Linear_init_shapes
    rn in_size out_size wscale bias nobias initialW initial_bias f :
  Linear_init rn in_size out_size wscale bias nobias initialW initial_bias
  = Ok f ->
  (exists W, params f !! "W" = Some W /\ shape W = [out_size; in_size] /\
     match initialW with
     | Some w => W = w
     | None => dtype_of W = float32
     end) /\
  (forall b, params f !! "b" = Some b -> shape b = [out_size]) /\
  params f !! "b"
  = match initial_bias with
    | Some b => Some b
    | None => if nobias then None else Some (repeat_float32 bias out_size)
    end /\
  (forall k, k <> "W" -> k <> "b" -> params f !! k = None).
Proof. apply Linear_init_post. Qed.

Lemma Linear_init_shapes_witness :
  exists f W,
    Linear_init no_random 3 2 (of_Z float64 1) (of_Z float64 0) false None None
    = Ok f /\
    params f !! "W" = Some W /\ shape W = [2; 3] /\ dtype_of W = float32 /\
    params f !! "b" = Some (array1 float32 [0; 0]%Z).
Proof.
  destruct (Linear_init no_random 3 2 (of_Z float64 1) (of_Z float64 0) false
              None None) as [f|e] eqn:E; [|vm_compute in E; discriminate E].
  destruct (Linear_init_shapes no_random 3 2 (of_Z float64 1) (of_Z float64 0)
              false None None f E) as ((W & HW & Hs & Hd) & _ & Hb & _).
  exists f, W. repeat split; assumption.
Defined.





(** ** The check of [Linear] and what it guarantees *)

(** X6.  For a layer whose weight has shape [(out_size, in_size)], the
    check passes exactly for a single input that is float32, has at least
    two axes and whose axes after the first multiply to [in_size]; on
    anything else, a wrong number of inputs included, it raises the type
    error and nothing else. *)
Theorem Linear_check_type_forward_iff self W out_size in_size in_types :
  params self !! "W" = Some W -> shape W = [out_size; in_size] ->
  (Linear_check_type_forward self in_types = Ok tt <->
   exists t, in_types = [t] /\ ti_dtype t = float32 /\ 2 <= ti_ndim t /\
             prod (drop 1 (ti_shape t)) = in_size) /\
  (Linear_check_type_forward self in_types <> Ok tt ->
   Linear_check_type_forward self in_types = Raise InvalidType).
Proof.
  intros HW Hs.
  rewrite (Linear_check_type_forward_cases self W out_size in_size in_types HW Hs).
  destruct in_types as [|t [|t' rest]].
  - split; [|reflexivity]. split; [discriminate|]. intros (t & [=] & _).
  - destruct (bool_decide_reflect (ti_dtype t = float32)) as [Hd|Hd];
      destruct (Nat.leb_spec 2 (ti_ndim t)) as [Hn|Hn];
      destruct (Nat.eqb_spec (prod (drop 1 (ti_shape t))) in_size) as [Hp|Hp];
      cbn [andb]; (split; [|first [reflexivity | intros H; contradiction]]);
      (split; [first [discriminate | intros _; exists t; auto]
              | intros (t0 & [= <-] & ? & ? & ?);
                first [reflexivity | contradiction | lia]]).
  - split; [|reflexivity]. split; [discriminate|]. intros (t0 & [=] & _).
Qed.

Lemma Linear_check_type_forward_iff_witness :
  Linear_check_type_forward ex_layer (get_types [ex_X]) = Ok tt /\
  Linear_check_type_forward ex_layer (get_types [ex_X; ex_X])
  = Raise InvalidType.
Proof.
  destruct (Linear_check_type_forward_iff ex_layer ex_W 2 3
              (get_types [ex_X; ex_X]) eq_refl eq_refl) as [_ H2].
  split; [reflexivity|]. apply H2. discriminate.
Defined.

(** X7.  For arrays of the real floating-point dtypes (float16, float32,
    float64): whatever the arguments a layer was constructed with, an input
    of a batch that is not empty and that passes the check of the layer is
    carried through [forward], which returns one array of shape
    [(batch, out_size)]. *)
Theorem Linear_checked_forward_shape {BK : Backend}
    rn in_size out_size wscale bias nobias initialW initial_bias f x batch :
  Linear_init rn in_size out_size wscale bias nobias initialW initial_bias
  = Ok f ->
  Linear_check_type_forward f (get_types [x]) = Ok tt ->
  head (shape x) = Some batch -> 1 <= batch ->
  exists y, Linear_forward f [x] = Ok [y] /\ shape y = [batch; out_size].
Proof.
  intros Hinit Hcheck Hhead Hbatch.
  destruct (Linear_init_post _ _ _ _ _ _ _ _ _ Hinit)
    as ((W & HW & HsW & _) & Hbs & _ & _).
  rewrite (Linear_check_type_forward_cases f W out_size in_size _ HW HsW) in Hcheck.
  cbn [get_types map ti_dtype ti_shape] in Hcheck. unfold ti_ndim in Hcheck.
  cbn [ti_shape] in Hcheck.
  destruct (bool_decide (dtype_of x = float32)); [|discriminate Hcheck].
  destruct (Nat.leb_spec 2 (length (shape x))) as [Hn|Hn]; [|discriminate Hcheck].
  destruct (Nat.eqb_spec (prod (drop 1 (shape x))) in_size) as [Hp|Hp];
    [|discriminate Hcheck].
  destruct (shape x) as [|n rest] eqn:Hs; [discriminate Hhead|].
  injection Hhead as ->. cbn [drop] in Hp. cbn [length] in Hn.
  rewrite ?drop_0 in Hp.
  assert (Hrest : rest <> []) by (intros ->; simpl in Hn; lia).
  unfold Linear_forward. cbn [py_index nth_error mbind result_bind].
  rewrite (_as_mat_batch x batch rest Hs Hrest Hbatch), Hp.
  cbn [mbind result_bind]. unfold py_getitem. rewrite HW.
  cbn [mbind result_bind].
  destruct (dot_2d_any (mk_ndarray (dtype_of x) [batch; in_size] (data x))
              (transpose W) batch in_size in_size out_size eq_refl)
    as [Hdot _].
  { unfold transpose. rewrite HsW. reflexivity. }
  destruct (Hdot eq_refl) as (d & ->). cbn [mbind result_bind].
  destruct (params f !! "b") as [b|] eqn:Hb.
  - match goal with
    | |- context [iadd ?a b] =>
        destruct (iadd_row_any a b batch out_size eq_refl (Hbs b eq_refl))
          as (d' & ->)
    end.
    cbn [mbind result_bind]. eexists. split; reflexivity.
  - eexists. split; reflexivity.
Qed.

Lemma Linear_checked_forward_shape_witness :
  exists f y,
    Linear_init no_random 3 2 (of_Z float64 1) (of_Z float64 0) false None None
    = Ok f /\
    Linear_forward (BK := textbook) f [ex_X3] = Ok [y] /\ shape y = [2; 2].
Proof.
  destruct (Linear_init no_random 3 2 (of_Z float64 1) (of_Z float64 0) false
              None None) as [f|e] eqn:E; [|vm_compute in E; discriminate E].
  destruct (Linear_checked_forward_shape (BK := textbook) no_random 3 2 (of_Z float64 1)
              (of_Z float64 0) false None None f ex_X3 2 E)
    as (y & Hf & Hs).
  - vm_compute in E. injection E as <-. vm_compute. reflexivity.
  - reflexivity.
  - lia.
  - exists f, y. auto.
Defined.

(** X8.  [forward] run without the check on an input whose axes after the
    first do not multiply to the second dimension of the weight does not
    compute anything: the matrix product raises a value error. *)
Theorem Linear_forward_not_aligned {BK : Backend} self W x batch rest out_size in_size :
  params self !! "W" = Some W -> shape W = [out_size; in_size] ->
  shape x = batch :: rest -> rest <> [] -> 1 <= batch ->
  prod rest <> in_size ->
  Linear_forward self [x] = Raise ValueError.
Proof.
  intros HW HsW Hs Hrest Hbatch Hp.
  unfold Linear_forward. cbn [py_index nth_error mbind result_bind].
  rewrite (_as_mat_batch x batch rest Hs Hrest Hbatch).
  cbn [mbind result_bind]. unfold py_getitem. rewrite HW.
  cbn [mbind result_bind].
  destruct (dot_2d_any (mk_ndarray (dtype_of x) [batch; prod rest] (data x))
              (transpose W) batch (prod rest) in_size out_size eq_refl)
    as [_ Hdot].
  { unfold transpose. rewrite HsW. reflexivity. }
  rewrite (Hdot Hp). reflexivity.
Qed.

Lemma Linear_forward_not_aligned_witness :
  Linear_forward (BK := textbook) ex_layer [ex_gy] = Raise ValueError.
Proof.
  apply (Linear_forward_not_aligned (BK := textbook) ex_layer ex_W ex_gy 4 [2] 2 3);
    first [reflexivity | discriminate | lia].
Defined.

(** ** What [backward] keeps *)

Lemma py_index_Ok {A} (t : list A) i a :
  py_index t i = Ok a -> nth_error t i = Some a.
Proof. unfold py_index. destruct (nth_error t i); intros [=]. congruence. Qed.

Lemma py_getitem_Ok {A} (d : gmap string A) key a :
  py_getitem d key = Ok a -> d !! key = Some a.
Proof. unfold py_getitem. destruct (d !! key); intros [=]. congruence. Qed.

(** [backward], step by step. *)
Lemma Linear_backward_inv {BK : Backend} self x gy self' r :
  Linear_backward self x gy = Ok (self', r) ->
  exists x0 gW gW' g,
    nth_error x 0 = Some x0 /\
    grads self !! "W" = Some gW /\
    shape gW' = shape gW /\ dtype_of gW' = dtype_of gW /\
    r = [g] /\ shape g = shape x0 /\
    params self' = params self /\
    (grads self' = <["W" := gW']> (grads self) /\ grads self !! "b" = None \/
     exists gb gb',
       grads self !! "b" = Some gb /\
       shape gb' = shape gb /\ dtype_of gb' = dtype_of gb /\
       grads self' = <["b" := gb']> (<["W" := gW']> (grads self))).
Proof.
  unfold Linear_backward. intros H.
  destruct (py_index x 0) as [x0|] eqn:Ex; simpl in H; [|discriminate H].
  apply py_index_Ok in Ex.
  destruct (_as_mat x0) as [_x|]; simpl in H; [|discriminate H].
  destruct (py_getitem (grads self) "W") as [gW|] eqn:HgW; simpl in H;
    [|discriminate H].
  apply py_getitem_Ok in HgW.
  destruct (py_index gy 0) as [gy0|]; simpl in H; [|discriminate H].
  destruct (dot (transpose gy0) _x) as [gWx|]; simpl in H; [|discriminate H].
  destruct (iadd gW gWx) as [gW'|] eqn:HiW; simpl in H; [|discriminate H].
  destruct (iadd_shape _ _ _ HiW) as [HsW HdW].
  rewrite lookup_insert_ne in H by discriminate.
  destruct (grads self !! "b") as [gb|] eqn:Hgb; simpl in H.
  - destruct (sum0 gy0) as [s|]; simpl in H; [|discriminate H].
    destruct (iadd gb s) as [gb'|] eqn:Hib; simpl in H; [|discriminate H].
    destruct (iadd_shape _ _ _ Hib) as [Hsb Hdb].
    destruct (py_getitem (params self) "W") as [W|]; simpl in H;
      [|discriminate H].
    destruct (dot gy0 W) as [gx|]; simpl in H; [|discriminate H].
    destruct (reshape gx (Some <$> shape x0)) as [g|] eqn:Hr; simpl in H;
      [|discriminate H].
    apply reshape_explicit_inv in Hr. injection H as <- <-.
    exists x0, gW, gW', g. subst g. simpl.
    repeat split; try assumption; try reflexivity.
    right. exists gb, gb'. auto.
  - destruct (py_getitem (params self) "W") as [W|]; simpl in H;
      [|discriminate H].
    destruct (dot gy0 W) as [gx|]; simpl in H; [|discriminate H].
    destruct (reshape gx (Some <$> shape x0)) as [g|] eqn:Hr; simpl in H;
      [|discriminate H].
    apply reshape_explicit_inv in Hr. injection H as <- <-.
    exists x0, gW, gW', g. subst g. simpl.
    repeat split; try assumption; try reflexivity.
    left. auto.
Qed.

(** X9.  Whenever [backward] returns, it returns one gradient, of the
    shape of the input [x[0]]; the parameters are untouched, and every
    accumulator is still there with the shape and the dtype it had, no
    accumulator having been added. *)
Theorem Linear_backward_keeps {BK : Backend} self x gy self' r :
  Linear_backward self x gy = Ok (self', r) ->
  (exists x0 g, nth_error x 0 = Some x0 /\ r = [g] /\ shape g = shape x0) /\
  params self' = params self /\
  (forall k, shape <$> grads self' !! k = shape <$> grads self !! k) /\
  (forall k, dtype_of <$> grads self' !! k = dtype_of <$> grads self !! k).
Proof.
  intros H.
  destruct (Linear_backward_inv _ _ _ _ _ H)
    as (x0 & gW & gW' & g & Hx & HgW & HsW & HdW & Hr & Hsg & Hp & Hg).
  split; [eauto|]. split; [exact Hp|].
  assert (HW : forall (A : Type) (sel : ndarray -> A) k,
            sel gW' = sel gW ->
            sel <$> <["W" := gW']> (grads self) !! k = sel <$> grads self !! k).
  { intros A sel k Hsel. destruct (decide (k = "W")) as [->|Hk].
    - rewrite lookup_insert_eq, HgW. simpl. congruence.
    - rewrite lookup_insert_ne by congruence. reflexivity. }
  destruct Hg as [[-> _]|(gb & gb' & Hgb & Hsb & Hdb & ->)].
  - split; intros k; apply HW; assumption.
  - assert (Hb : forall (A : Type) (sel : ndarray -> A) k,
              sel gW' = sel gW -> sel gb' = sel gb ->
              sel <$> <["b" := gb']> (<["W" := gW']> (grads self)) !! k
              = sel <$> grads self !! k).
    { intros A sel k HselW Hselb. destruct (decide (k = "b")) as [->|Hk].
      - rewrite lookup_insert_eq, Hgb. simpl. congruence.
      - rewrite lookup_insert_ne by congruence. apply HW. exact HselW. }
    split; intros k; apply Hb; assumption.
Qed.

Lemma Linear_backward_keeps_witness :
  exists self' g,
    Linear_backward (BK := textbook) ex_layer [ex_X3] [ex_gy2] = Ok (self', [g]) /\
    shape g = [2; 3; 1] /\ params self' = params ex_layer /\
    shape <$> grads self' !! "W" = Some [2; 3].
Proof.
  destruct (Linear_backward (BK := textbook) ex_layer [ex_X3] [ex_gy2]) as [[self' r]|e] eqn:E;
    [|vm_compute in E; discriminate E].
  destruct (Linear_backward_keeps (BK := textbook) ex_layer [ex_X3] [ex_gy2] self' r E)
    as ((x0 & g & Hx & -> & Hs) & Hp & Hsh & _).
  exists self', g. injection Hx as <-.
  repeat split; try assumption. rewrite Hsh. reflexivity.
Defined.

(** The errors [backward] can end in. *)
Lemma Linear_backward_raises {BK : Backend} self x gy e :
  Linear_backward self x gy = Raise e ->
  e = IndexError \/ e = TypeError \/ e = ValueError \/ e = KeyError.
Proof.
  unfold Linear_backward. intros H.
  destruct (py_index x 0) as [x0|e0] eqn:E0; simpl in H;
    [|injection H as <-; apply py_index_raises in E0; auto].
  destruct (_as_mat x0) as [_x|e1] eqn:E1; simpl in H;
    [|injection H as <-; apply _as_mat_raises in E1; tauto].
  destruct (py_getitem (grads self) "W") as [gW|e2] eqn:E2; simpl in H;
    [|injection H as <-; apply py_getitem_raises in E2; auto].
  destruct (py_index gy 0) as [gy0|e3] eqn:E3; simpl in H;
    [|injection H as <-; apply py_index_raises in E3; auto].
  destruct (dot (transpose gy0) _x) as [gWx|e4] eqn:E4; simpl in H;
    [|injection H as <-; apply dot_raises in E4; auto].
  destruct (iadd gW gWx) as [gW'|e5] eqn:E5; simpl in H;
    [|injection H as <-; apply iadd_raises in E5; auto].
  assert (Hrest : forall g2 : gmap string ndarray,
            (W ← py_getitem (params self) "W";
             gx ← dot gy0 W;
             gx0 ← reshape gx (Some <$> shape x0);
             Ok (mk_Linear (params self) g2, [gx0])) = Raise e ->
            e = IndexError \/ e = TypeError \/ e = ValueError \/ e = KeyError).
  { intros g2 Hg.
    destruct (py_getitem (params self) "W") as [W|e6] eqn:E6; simpl in Hg;
      [|injection Hg as <-; apply py_getitem_raises in E6; auto].
    destruct (dot gy0 W) as [gx|e7] eqn:E7; simpl in Hg;
      [|injection Hg as <-; apply dot_raises in E7; auto].
    destruct (reshape gx (Some <$> shape x0)) as [gx0|e8] eqn:E8; simpl in Hg;
      [discriminate Hg|injection Hg as <-; apply reshape_raises in E8; auto]. }
  destruct (<["W":=gW']> (grads self) !! "b") as [gb|]; simpl in H.
  - destruct (sum0 gy0) as [s|e6] eqn:E6; simpl in H;
      [|injection H as <-; apply sum0_raises in E6; auto].
    destruct (iadd gb s) as [gb'|e7] eqn:E7; simpl in H;
      [|injection H as <-; apply iadd_raises in E7; auto].
    apply (Hrest _ H).
  - apply (Hrest _ H).
Qed.

(** X10.  [backward] of the nonparameterized operator ends in an attribute
    error exactly when no [forward] has run on the instance, which then has
    no [func]. *)
Theorem NonparameterizedLinear_backward_needs_forward {BK : Backend}
    self x gy :
  NonparameterizedLinear_backward self x gy = Raise AttributeError <->
  func self = None.
Proof.
  unfold NonparameterizedLinear_backward. split.
  - destruct (func self) as [f|]; [|reflexivity]. simpl. intros H.
    destruct (Linear_backward (zerograds f) (take 1 x) gy) as [[f' gx]|e] eqn:E;
      simpl in H.
    + destruct (grads f' !! "b");
        destruct (py_index gx 0) as [gx0|e0] eqn:E0; simpl in H;
        try (injection H as ->; apply py_index_raises in E0; discriminate E0);
        destruct (py_getitem (grads f') "W") as [gW|e1] eqn:E1; simpl in H;
        try discriminate H;
        injection H as ->; apply py_getitem_raises in E1; discriminate E1.
    + injection H as ->. apply Linear_backward_raises in E.
      destruct E as [E|[E|[E|E]]]; discriminate E.
  - intros ->. reflexivity.
Qed.

(** ** The check of the nonparameterized operator *)

(** X11.  The check of the nonparameterized operator passes exactly for
    two or three inputs [x], [W] and possibly [b] with [x] and [W] float32,
    [x] of at least two axes, [W] of two axes, the second as long as the
    axes of [x] after the first multiply to, and [b] of one axis as long as
    the first axis of [W].  On anything else it raises the type error:
    indexing the shape of [W] or [b] never fails first. *)
Theorem NonparameterizedLinear_check_type_forward_iff in_types :
  (NonparameterizedLinear_check_type_forward in_types = Ok tt <->
   nl_accepts in_types) /\
  (forall e, NonparameterizedLinear_check_type_forward in_types = Raise e ->
             e = InvalidType).
Proof.
  split; [split|].
  - apply NonparameterizedLinear_check_sound.
  - apply NonparameterizedLinear_check_accepts.
  - apply NonparameterizedLinear_check_raises.
Qed.

(** ** The nonparameterized operator and [linear] *)



(** X13.  [backward] of the nonparameterized operator can be repeated: a
    second call on the instance the first one leaves returns the same
    gradients and leaves the same instance.  Nothing accumulates from one
    call to the next. *)
Theorem NonparameterizedLinear_backward_repeatable {BK : Backend}
    self x gy self' g :
  NonparameterizedLinear_backward self x gy = Ok (self', g) ->
  NonparameterizedLinear_backward self' x gy = Ok (self', g).
Proof.
  intros H. assert (H' := H). unfold NonparameterizedLinear_backward in H.
  destruct (func self) as [f|] eqn:Hf; [|discriminate H]. simpl in H.
  destruct (Linear_backward (zerograds f) (take 1 x) gy) as [[f' gx]|] eqn:E;
    simpl in H; [|discriminate H].
  destruct (Linear_backward_inv _ _ _ _ _ E)
    as (_ & _ & _ & _ & _ & _ & _ & _ & _ & _ & Hp & _).
  simpl in Hp.
  assert (Hself' : func self' = Some f').
  { destruct (grads f' !! "b");
      destruct (py_index gx 0); simpl in H; try discriminate H;
      destruct (py_getitem (grads f') "W"); simpl in H; try discriminate H;
      injection H as <- _; reflexivity. }
  assert (Hz : zerograds f' = zerograds f).
  { unfold zerograds. rewrite Hp. reflexivity. }
  unfold NonparameterizedLinear_backward in H' |- *.
  rewrite Hf in H'. rewrite Hself'. simpl in H' |- *. rewrite Hz.
  rewrite E in H' |- *. simpl in H' |- *.
  destruct (grads f' !! "b");
    destruct (py_index gx 0); simpl in H' |- *; try discriminate H';
    destruct (py_getitem (grads f') "W"); simpl in H' |- *;
    try discriminate H'; injection H' as <- <-; reflexivity.
Qed.

Lemma NonparameterizedLinear_backward_repeatable_witness :
  exists nl g,
    NonparameterizedLinear_backward (BK := textbook)
      (mk_NonparameterizedLinear (Some ex_layer)) [ex_X; ex_W; ex_b] [ex_gy]
    = Ok (nl, g) /\
    NonparameterizedLinear_backward (BK := textbook) nl [ex_X; ex_W; ex_b] [ex_gy] = Ok (nl, g).
Proof.
  destruct (NonparameterizedLinear_backward (BK := textbook)
              (mk_NonparameterizedLinear (Some ex_layer)) [ex_X; ex_W; ex_b]
              [ex_gy]) as [[nl g]|e] eqn:E; [|vm_compute in E; discriminate E].
  exists nl, g. split; [reflexivity|].
  apply (NonparameterizedLinear_backward_repeatable (BK := textbook)
           (mk_NonparameterizedLinear (Some ex_layer)) [ex_X; ex_W; ex_b]
           [ex_gy] nl g E).
Defined.

(** X14.  A call of [linear] on arrays of the real floating-point dtypes
    (float16, float32, float64) whose inputs pass the check, on a batch that
    is not empty, returns one float32 array of shape [(batch, out_size)],
    [out_size] being the first dimension of [W], whichever of these dtypes
    the bias has. *)
Theorem linear_checked_output {BK : Backend} rn x W b batch :
  NonparameterizedLinear_check_type_forward (get_types (x :: W :: option_list b))
  = Ok tt ->
  head (shape x) = Some batch -> 1 <= batch ->
  exists nl y out_size,
    linear rn x W b = Ok (nl, [y]) /\
    head (shape W) = Some out_size /\
    shape y = [batch; out_size] /\ dtype_of y = float32.
Proof. apply linear_checked_shape. Qed.

Lemma linear_checked_output_witness :
  exists nl y,
    linear (BK := textbook) no_random ex_X ex_W (Some (array1 float64 [0; 1]%Z)) = Ok (nl, [y]) /\
    shape y = [4; 2] /\ dtype_of y = float32.
Proof.
  destruct (linear_checked_output (BK := textbook) no_random ex_X ex_W
              (Some (array1 float64 [0; 1]%Z)) 4)
    as (nl & y & o & Hl & Ho & Hs & Hd); try solve [valid_args].
  injection Ho as <-. exists nl, y. auto.
Defined.

(** X15.  A call of [linear] whose inputs are not ones the check lets
    through ends in the type error: no layer is constructed and nothing is
    computed. *)
Theorem linear_rejects {BK : Backend} rn x W b :
  ~ nl_accepts (get_types (x :: W :: option_list b)) ->
  linear rn x W b = Raise InvalidType.
Proof.
  intros Hno.
  destruct (NonparameterizedLinear_check_type_forward
              (get_types (x :: W :: option_list b))) as [[]|e] eqn:Hc.
  - exfalso. apply Hno. apply NonparameterizedLinear_check_sound. exact Hc.
  - apply NonparameterizedLinear_check_raises in Hc as He. subst e.
    unfold linear, NonparameterizedLinear_call, Function_call.
    destruct b as [b0|]; cbv [option_list option_rect] in Hc; rewrite Hc;
      reflexivity.
Qed.

Lemma linear_rejects_witness :
  linear (BK := textbook) no_random (array2 float64 [[1; 1; 1]]%Z) ex_W None = Raise InvalidType /\
  linear (BK := textbook) no_random ex_X ex_W (Some ex_W) = Raise InvalidType.
Proof.
  split.
  - apply (linear_rejects (BK := textbook) no_random (array2 float64 [[1; 1; 1]]%Z) ex_W None).
    intros (tx & tw & o & Hdx & _ & _ & _ & [[= <- <-]|(tb & [=] & _)]).
    discriminate Hdx.
  - apply (linear_rejects (BK := textbook) no_random ex_X ex_W (Some ex_W)).
    intros (tx & tw & o & _ & _ & _ & Hsw & [[=]|(tb & [= <- <- <-] & Hsb)]).
    discriminate Hsb.
Defined.

(** ** When [forward] returns *)

Lemma _as_mat_Ok_2d x m :
  _as_mat x = Ok m -> exists r c, shape m = [r; c].
Proof.
  intros H. destruct (_as_mat_cases x) as (H0 & H2 & HV & HN).
  destruct (shape x) as [|n rest] eqn:Hs.
  - rewrite H0 in H by reflexivity. discriminate H.
  - destruct (Nat.eq_dec (length rest) 1) as [Hl|Hl].
    + destruct rest as [|k [|? ?]]; try discriminate Hl.
      rewrite (H2 n k eq_refl) in H. injection H as <-. eauto.
    + destruct n as [|n].
      * rewrite (HV rest Hl eq_refl) in H. discriminate H.
      * rewrite (HN (S n) rest Hl ltac:(lia) eq_refl) in H.
        injection H as <-. simpl. eauto.
Qed.

(** X18.  For arrays of the real floating-point dtypes (float16, float32,
    float64): [forward] of a constructed layer, run on one array without the
    check, returns exactly when [_as_mat] makes of the array a matrix of
    [in_size] columns; the bias, when the layer has one, always fits. *)
Theorem Linear_forward_succeeds_iff {BK : Backend}
    rn in_size out_size wscale bias nobias initialW initial_bias f x :
  Linear_init rn in_size out_size wscale bias nobias initialW initial_bias
  = Ok f ->
  (exists y, Linear_forward f [x] = Ok [y]) <->
  (exists m batch, _as_mat x = Ok m /\ shape m = [batch; in_size]).
Proof.
  intros Hinit.
  destruct (Linear_init_post _ _ _ _ _ _ _ _ _ Hinit)
    as ((W & HW & HsW & _) & Hbs & _ & _).
  assert (HsT : shape (transpose W) = [in_size; out_size]).
  { unfold transpose. rewrite HsW. reflexivity. }
  unfold Linear_forward, py_getitem.
  cbn [py_index nth_error mbind result_bind]. rewrite HW.
  destruct (_as_mat x) as [m|e] eqn:Em; cbn [mbind result_bind].
  - destruct (_as_mat_Ok_2d _ _ Em) as (r & c & Hsm).
    destruct (dot_2d_any m (transpose W) r c in_size out_size Hsm HsT)
      as [Hdot Hno].
    destruct (Nat.eq_dec c in_size) as [Hc|Hc].
    + destruct (Hdot Hc) as (d & ->). cbn [mbind result_bind]. split.
      * intros _. exists m, r. subst c. auto.
      * intros _. destruct (params f !! "b") as [b|] eqn:Hb.
        -- match goal with
           | |- context [iadd ?a b] =>
               destruct (iadd_row_any a b r out_size eq_refl (Hbs b eq_refl))
                 as (d' & ->)
           end.
           cbn [mbind result_bind]. eauto.
        -- eauto.
    + rewrite (Hno Hc). cbn [mbind result_bind]. split.
      * intros [y [=]].
      * intros (m' & batch & [= <-] & Hs'). rewrite Hsm in Hs'.
        injection Hs' as _ ->. contradiction.
  - split.
    + intros [y [=]].
    + intros (m' & batch & [=] & _).
Qed.

Lemma Linear_forward_succeeds_iff_witness :
  exists f y,
    Linear_init no_random 1 2 (of_Z float64 1) (of_Z float64 0) false None None
    = Ok f /\
    Linear_forward (BK := textbook) f [array1 float32 [7; 8; 9]%Z] = Ok [y].
Proof.
  destruct (Linear_init no_random 1 2 (of_Z float64 1) (of_Z float64 0) false
              None None) as [f|e] eqn:E; [|vm_compute in E; discriminate E].
  destruct (Linear_forward_succeeds_iff (BK := textbook) no_random 1 2 (of_Z float64 1)
              (of_Z float64 0) false None None f (array1 float32 [7; 8; 9]%Z) E)
    as [_ H].
  destruct H as (y & Hy).
  - eexists _, 3. split; reflexivity.
  - exists f, y. auto.
Defined.
